(** * A gesture-driven particle tree: shallow embedding of [src/App.tsx]

    The development follows the component of [src/App.tsx] and the types of
    [types.ts]: the hand-gesture classifier and the per-frame mode logic of
    [predictLoop], the photo capture sequence ([triggerCountdown], the
    countdown effect, [takePhoto] and its timers), and the construction of
    the particle formations in the scene-initialisation effect.

    Conventions of the embedding.
    - JavaScript numbers that hold coordinates, distances and angles are
      idealised as real numbers ([R]); [Math.hypot], [Math.sqrt],
      [Math.cos], [Math.sin], [Math.pow] and [Math.floor] are the real
      functions.  Frame counters and millisecond clocks are integers ([Z]).
    - [Math.random()] is an oracle: the infinite sequence [rand] of the
      values it returns, together with the number of draws made so far.
    - React state and mutable refs are fields of one record, [App], threaded
      through every operation.  [setTimeout] callbacks are entries of a
      timer queue kept in that record and fired by [advance]. *)

From Stdlib Require Import Reals Lra Lia ZArith List Bool String.
From stdpp Require Import base list.
Import ListNotations.

Local Open Scope R_scope.

(** ** JavaScript numeric primitives *)

Module JS.

Definition ltb (a b : R) : bool := if Rlt_dec a b then true else false.
Definition gtb (a b : R) : bool := ltb b a.

(** [Math.hypot(a, b)] *)
Definition hypot (a b : R) : R := sqrt (a * a + b * b).

(** [Math.floor(a)] *)
Definition floor (a : R) : Z := Int_part a.

(** [Math.pow(a, e)] for a base [0 <= a] and an exponent [0 < e], the only
    use in the source: [Math.pow(0, e)] is [0]. *)
Definition pow (a e : R) : R := if Req_dec_T a 0 then 0 else Rpower a e.

(** [Math.min(a, b)] *)
Definition min (a b : R) : R := Rmin a b.

End JS.

Infix "<?" := JS.ltb : R_scope.
Infix ">?" := JS.gtb : R_scope.

(** ** [types.ts] *)

Inductive AppMode : Set := LOADING | SCATTER | TREE | TEXT.

Inductive GestureType : Set :=
  NONE | PINCH | FIST | L_SHAPE | OPEN_PALM | THUMBS_UP.

Inductive ParticleType : Set :=
  | ORNAMENT | GIFT | CANDY_CANE | STAR_ORNAMENT | BRANCH | BELL
  | SNOWFLAKE | LIGHT | PHOTO.

(** [THREE.Vector3] *)
Record Vector3 : Type := Vec3 { vx : R; vy : R; vz : R }.

Definition origin : Vector3 := Vec3 0 0 0.

#[export] Instance Vector3_inhabited : Inhabited Vector3 := populate origin.

(** ** The gesture classifier ([predictLoop], the landmark tests) *)

(** One point of the hand-landmark result; [lm_x] and [lm_y] are the [x] and
    [y] of [NormalizedLandmark] ([y] grows downwards). *)
Record NormalizedLandmark : Type := Landmark { lm_x : R; lm_y : R; lm_z : R }.

(** [res.landmarks[0]], the 21 points of one hand, read by index. *)
Definition Landmarks : Type := nat -> NormalizedLandmark.

Section Classifier.

Variable l : Landmarks.

Definition wrist : NormalizedLandmark := l 0%nat.
Definition tTip : NormalizedLandmark := l 4%nat.
Definition iTip : NormalizedLandmark := l 8%nat.
Definition mTip : NormalizedLandmark := l 12%nat.
Definition rTip : NormalizedLandmark := l 16%nat.
Definition pTip : NormalizedLandmark := l 20%nat.
Definition tIP : NormalizedLandmark := l 3%nat.
Definition tMCP : NormalizedLandmark := l 2%nat.

Definition isEx (tip : NormalizedLandmark) (mcpIdx : nat) : bool :=
  let distTip := JS.hypot (lm_x tip - lm_x wrist) (lm_y tip - lm_y wrist) in
  let distMcp :=
    JS.hypot (lm_x (l mcpIdx) - lm_x wrist) (lm_y (l mcpIdx) - lm_y wrist) in
  distTip >? distMcp * 1.1.

Definition iE : bool := isEx iTip 5.
Definition mE : bool := isEx mTip 9.
Definition rE : bool := isEx rTip 13.
Definition pE : bool := isEx pTip 17.

(** The stricter thumb test of the thumbs-up rule (factor 1.2). *)
Definition tE : bool :=
  JS.hypot (lm_x tTip - lm_x wrist) (lm_y tTip - lm_y wrist)
  >? JS.hypot (lm_x (l 3%nat) - lm_x wrist) (lm_y (l 3%nat) - lm_y wrist) * 1.2.

(** The thumb test of the L-shape rule (factor 1.05). *)
Definition tE_Legacy : bool :=
  JS.hypot (lm_x tTip - lm_x wrist) (lm_y tTip - lm_y wrist)
  >? JS.hypot (lm_x (l 3%nat) - lm_x wrist) (lm_y (l 3%nat) - lm_y wrist) * 1.05.

Definition pinchDist : R :=
  JS.hypot (lm_x tTip - lm_x iTip) (lm_y tTip - lm_y iTip).

Definition thumbPointingUp : bool :=
  (lm_y tTip <? lm_y tIP) && (lm_y tIP <? lm_y tMCP).

Definition fingersCurled : bool := negb iE && negb mE && negb rE && negb pE.

(** The five tests of the [if]/[else if] chain, in the order of the
    source, one per gesture. *)
Definition pinchRule : bool := (pinchDist <? 0.06) && mE && rE && pE.
Definition thumbsUpRule : bool := fingersCurled && tE && thumbPointingUp.
Definition fistRule : bool := negb iE && negb mE && negb rE && negb pE.
Definition openPalmRule : bool := iE && mE && rE && pE.
Definition lShapeRule : bool := tE_Legacy && iE && negb pE.

(** [let gest = 'NONE'; if (...) gest = 'PINCH'; else if ...] *)
Definition classify : GestureType :=
  if pinchRule then PINCH
  else if thumbsUpRule then THUMBS_UP
  else if fistRule then FIST
  else if openPalmRule then OPEN_PALM
  else if lShapeRule then L_SHAPE
  else NONE.

End Classifier.

(** The test that selects a gesture in the chain; [NONE] is the final
    [else] and has no test of its own. *)
Definition rule (g : GestureType) (l : Landmarks) : bool :=
  match g with
  | PINCH => pinchRule l
  | THUMBS_UP => thumbsUpRule l
  | FIST => fistRule l
  | OPEN_PALM => openPalmRule l
  | L_SHAPE => lShapeRule l
  | NONE => true
  end.

(** Position of a gesture in the chain. *)
Definition priority (g : GestureType) : nat :=
  match g with
  | PINCH => 0
  | THUMBS_UP => 1
  | FIST => 2
  | OPEN_PALM => 3
  | L_SHAPE => 4
  | NONE => 5
  end.

(** The finger tests as propositions over the coordinates. *)
Definition extendedBy (ratio : R) (l : Landmarks) (tip joint : nat) : Prop :=
  JS.hypot (lm_x (l tip) - lm_x (l 0%nat)) (lm_y (l tip) - lm_y (l 0%nat))
  > JS.hypot (lm_x (l joint) - lm_x (l 0%nat)) (lm_y (l joint) - lm_y (l 0%nat))
    * ratio.

Definition allFourCurled (l : Landmarks) : Prop :=
  ~ extendedBy 1.1 l 8 5 /\ ~ extendedBy 1.1 l 12 9 /\
  ~ extendedBy 1.1 l 16 13 /\ ~ extendedBy 1.1 l 20 17.

(** The thumbs-up condition in the words of the specification: the thumb
    tip lies above the IP joint and above the MCP joint. *)
Definition thumbsUpAsSpecified (l : Landmarks) : Prop :=
  extendedBy 1.2 l 4 3 /\ allFourCurled l /\
  lm_y (l 4%nat) < lm_y (l 3%nat) /\ lm_y (l 4%nat) < lm_y (l 2%nat).

(** The thumbs-up condition of the source: tip above IP, IP above MCP. *)
Definition thumbsUpAsCoded (l : Landmarks) : Prop :=
  extendedBy 1.2 l 4 3 /\ allFourCurled l /\
  lm_y (l 4%nat) < lm_y (l 3%nat) /\ lm_y (l 3%nat) < lm_y (l 2%nat).

(** Sample hands.  All points lie on the vertical line [x = 0.5]; the wrist
    is at the bottom ([y = 0.9]).  [hand] takes the [y] of the thumb MCP, IP
    and tip and of the tips of the four fingers, whose MCP joints are at
    [y = 0.6]. *)
Definition hand (t2 t3 t4 i8 m12 r16 p20 : R) : Landmarks :=
  fun i =>
    Landmark 0.5
      (match i with
       | 0%nat => 0.9
       | 2%nat => t2 | 3%nat => t3 | 4%nat => t4
       | 5%nat | 9%nat | 13%nat | 17%nat => 0.6
       | 8%nat => i8 | 12%nat => m12 | 16%nat => r16 | 20%nat => p20
       | _ => 0.7
       end) 0.

(** Thumb folded, four fingers curled. *)
Definition fistHand : Landmarks := hand 0.8 0.7 0.7 0.65 0.65 0.65 0.65.
(** Thumb raised, four fingers curled. *)
Definition thumbsUpHand : Landmarks := hand 0.8 0.7 0.5 0.65 0.65 0.65 0.65.
(** Four fingers stretched, thumb away from the index tip. *)
Definition openPalmHand : Landmarks := hand 0.8 0.7 0.6 0.3 0.3 0.3 0.3.
(** Four fingers stretched, thumb tip touching the index tip. *)
Definition pinchPalmHand : Landmarks := hand 0.8 0.7 0.3 0.3 0.3 0.3 0.3.
(** Thumb and index stretched, the others curled. *)
Definition lShapeHand : Landmarks := hand 0.8 0.7 0.6 0.3 0.65 0.65 0.65.
(** Middle finger alone stretched: no rule applies. *)
Definition otherHand : Landmarks := hand 0.8 0.7 0.7 0.65 0.3 0.65 0.65.
(** Thumb tip above both joints, but the IP joint below the MCP joint. *)
Definition bentThumbHand : Landmarks := hand 0.7 0.8 0.5 0.65 0.65 0.65 0.65.

(** ** Particles ([types.ts]) and the scene objects they drive *)

(** What a particle's [mesh] is: the model built for it and the data kept
    on it ([userData.phase] and [userData.speed] of a fairy light, the
    initial rotation of a small star, whether the video frame was drawn on
    a polaroid). *)
Inductive MeshModel : Type :=
  | TopperStar
  | FairyLight (color : Z) (phase speed : R)
  | SmallStar (rotation : Vector3)
  | Wreath
  | Hat
  | Bear
  | Ball (red : bool)
  | Polaroid (frameDrawn : bool).

Record Mesh : Type := {
  model : MeshModel;
  position : Vector3;
  visible : bool
}.

Record Particle : Type := {
  mesh : Mesh;
  type : ParticleType;
  treePos : Vector3;
  scatterPos : Vector3;
  textPos : Vector3;
  velocity : Vector3;
  rotationSpeed : Vector3;
  isPhoto : bool
}.

(** ** Constants *)

Definition TREE_HEIGHT : R := 55.
Definition TREE_BASE_RADIUS : R := 22.
Definition PREVIEW_WORLD_POS : Vector3 := Vec3 0 3 72.

(** ** Tree-formation targets *)

(** The target of one particle of the scene-construction loops, from the
    five draws it consumes.  The three loops differ in the exponent [e] of
    the height bias and in the radial fraction [lo + hi * sqrt _]; [u] is
    the height draw, [a1] and [f1] the two draws of the [x] coordinate, [a2]
    and [f2] the two draws of the [z] coordinate. *)
Definition treeTarget (e lo hi : R) (u a1 f1 a2 f2 : R) : Vector3 :=
  let hN := JS.pow u e in
  let y := (hN * TREE_HEIGHT) - (TREE_HEIGHT / 2) in
  let mR := TREE_BASE_RADIUS * (1.0 - (y + TREE_HEIGHT / 2) / TREE_HEIGHT) in
  Vec3 (cos (a1 * 6.28) * mR * (lo + hi * sqrt f1))
       y
       (sin (a2 * 6.28) * mR * (lo + hi * sqrt f2)).

Definition lightTreeTarget : R -> R -> R -> R -> R -> Vector3 :=
  treeTarget 0.95 0.2 0.8.
Definition smallStarTreeTarget : R -> R -> R -> R -> R -> Vector3 :=
  treeTarget 0.9 0.1 0.9.
Definition ornamentTreeTarget : R -> R -> R -> R -> R -> Vector3 :=
  treeTarget 0.9 0.2 0.8.

(** The tree target of a captured photo ([takePhoto], "Tree Target"), from
    its three draws. *)
Definition photoTreeTarget (u1 u2 u3 : R) : Vector3 :=
  let normalizedHeight := (u1 * 0.9) - 0.45 in
  let h := normalizedHeight * TREE_HEIGHT in
  let maxRadiusAtHeight :=
    (1 - (h + TREE_HEIGHT / 2) / TREE_HEIGHT) * TREE_BASE_RADIUS in
  let radius := maxRadiusAtHeight * (0.4 + u2 * 0.7) + 1.0 in
  let angle := u3 * 6.28 in
  Vec3 (cos angle * radius) h (sin angle * radius).

(** The cone of the specification: apex up, height [TREE_HEIGHT], base
    radius [TREE_BASE_RADIUS], centred on the vertical axis. *)
Definition coneRadius (y : R) : R :=
  TREE_BASE_RADIUS * (1 - (y + TREE_HEIGHT / 2) / TREE_HEIGHT).

Definition horizontalDistance (p : Vector3) : R :=
  sqrt (vx p * vx p + vz p * vz p).

Definition insideCone (p : Vector3) : Prop :=
  - (TREE_HEIGHT / 2) <= vy p <= TREE_HEIGHT / 2 /\
  horizontalDistance p <= coneRadius (vy p).

(** The square pyramid that circumscribes the cone: each horizontal
    coordinate, taken alone, is within the cone's radius at that height. *)
Definition withinPyramid (p : Vector3) : Prop :=
  - (TREE_HEIGHT / 2) <= vy p <= TREE_HEIGHT / 2 /\
  Rabs (vx p) <= coneRadius (vy p) /\
  Rabs (vz p) <= coneRadius (vy p).

(** The range of [Math.random()]. *)
Definition unitDraw (u : R) : Prop := 0 <= u < 1.

(** ** Text-formation targets ([getVavePoints]) *)






(** [arr[Math.floor(u * arr.length)]] *)
Definition pick {A : Type} `{Inhabited A} (arr : list A) (u : R) : A :=
  arr !!! Z.to_nat (JS.floor (u * INR (length arr))).


Section Random.

(** The values returned by the successive calls of [Math.random()]. *)
Variable rand : nat -> R.

(** *** Scene construction *)

(** The mutable state of the construction: the number of draws made and
    the allocator index [vaveIndex]. *)
Record Gen : Type := { drawn : nat; vaveIndex : nat }.

Definition Build (A : Type) : Type := Gen -> A * Gen.

Definition ret {A : Type} (a : A) : Build A := fun g => (a, g).

Definition bind {A B : Type} (m : Build A) (k : A -> Build B) : Build B :=
  fun g => let (a, g') := m g in k a g'.

Notation "'let*' x ':=' m 'in' k" := (bind m (fun x => k))
  (at level 10, x name, m at level 100, k at level 200, only parsing).







(** [getNextTextPos()] over the shuffled array. *)
Definition getNextTextPos (vavePoints : list Vector3) : Build Vector3 :=
  fun g =>
    if (vaveIndex g <? length vavePoints)%nat
    then (vavePoints !!! vaveIndex g,
          {| drawn := drawn g; vaveIndex := S (vaveIndex g) |})
    else (origin, g).


Definition topperParticle (vavePoints : list Vector3) : Build Particle :=
  let position := Vec3 0 (TREE_HEIGHT / 2 + 5) 0 in
  let* tx := getNextTextPos vavePoints in
  ret {| mesh := {| model := TopperStar; position := position;
                    visible := true |};
         type := STAR_ORNAMENT;
         treePos := position;
         scatterPos := Vec3 0 75 0;
         textPos := tx;
         velocity := origin;
         rotationSpeed := Vec3 0 0.01 0;
         isPhoto := false |}.







End Random.

(** ** The component state *)

Inductive CaptureState : Set := IDLE | COUNTDOWN | FLASH | DEVELOPING | FLYING.

(** The scene group, through the map [worldToLocal] of its current
    transform. *)
Record Group : Type := { worldToLocal : Vector3 -> Vector3 }.

Inductive Camera : Set := PerspectiveCamera.

(** The [<video>] element. *)
Record Video : Type := { readyState : Z; videoWidth : Z; videoHeight : Z }.

(** The image handed to the developing overlay: the square centre crop of
    the video frame ([sx], [sy], [minDim] of [drawImage]). *)
Record Snapshot : Type := { sx : R; sy : R; minDim : R }.

(** The callbacks given to [setTimeout]. *)
Inductive TimerAction : Set :=
  | CountdownTick          (* [setCountdown(c => c !== null ? c - 1 : 0)] *)
  | EndFlash               (* the 150 ms callback of [takePhoto] *)
  | FlySequence (newP : nat) (* the 4500 ms callback of [takePhoto] *)
  | BackToIdle.            (* the 1000 ms callback set by the fly sequence *)

(** React state ([useState]) and mutable refs ([useRef]) of [App]. *)
Record App : Type := {
  (* [appMode] and its mirror [modeRef], always written together *)
  appMode : AppMode;
  (* [captureState] and its mirror [captureStateRef] *)
  captureState : CaptureState;
  countdown : option Z;
  flash : bool;
  snapshotImage : option Snapshot;
  camMessage : string;
  currentGesture : GestureType;
  gestureRef : GestureType;
  rotationSpeedRef : R;
  (* width of the hold bar in percent, when the element is mounted *)
  holdBarRef : option R;
  mainGroupRef : option Group;
  cameraRef : option Camera;
  videoRef : option Video;
  (* whether a hand landmarker has been created *)
  landmarkerRef : bool;
  isMountedRef : bool;
  (* whether [getContext('2d')] yields a context *)
  canvas2d : bool;
  particlesRef : list Particle;
  (* the zoomed particle, by its index in [particlesRef] *)
  zoomedPhotoRef : option nat;
  (* the previewed particle, by its index *)
  previewingPhotoRef : option nat;
  lShapeHoldTimeRef : Z;
  pinchHoldTimeRef : Z;
  lastCaptureTimeRef : Z;
  (* pending [setTimeout] callbacks, earliest first *)
  timers : list (Z * TimerAction);
  (* number of [Math.random()] calls made so far *)
  randomCalls : nat
}.

(** Field updates. *)
Definition with_appMode (v : AppMode) (s : App) : App :=
  {| appMode := v; captureState := captureState s; countdown := countdown s;
     flash := flash s; snapshotImage := snapshotImage s;
     camMessage := camMessage s; currentGesture := currentGesture s;
     gestureRef := gestureRef s; rotationSpeedRef := rotationSpeedRef s;
     holdBarRef := holdBarRef s; mainGroupRef := mainGroupRef s;
     cameraRef := cameraRef s; videoRef := videoRef s;
     landmarkerRef := landmarkerRef s; isMountedRef := isMountedRef s;
     canvas2d := canvas2d s; particlesRef := particlesRef s;
     zoomedPhotoRef := zoomedPhotoRef s;
     previewingPhotoRef := previewingPhotoRef s;
     lShapeHoldTimeRef := lShapeHoldTimeRef s;
     pinchHoldTimeRef := pinchHoldTimeRef s;
     lastCaptureTimeRef := lastCaptureTimeRef s; timers := timers s;
     randomCalls := randomCalls s |}.

Definition with_captureState (v : CaptureState) (s : App) : App :=
  {| appMode := appMode s; captureState := v; countdown := countdown s;
     flash := flash s; snapshotImage := snapshotImage s;
     camMessage := camMessage s; currentGesture := currentGesture s;
     gestureRef := gestureRef s; rotationSpeedRef := rotationSpeedRef s;
     holdBarRef := holdBarRef s; mainGroupRef := mainGroupRef s;
     cameraRef := cameraRef s; videoRef := videoRef s;
     landmarkerRef := landmarkerRef s; isMountedRef := isMountedRef s;
     canvas2d := canvas2d s; particlesRef := particlesRef s;
     zoomedPhotoRef := zoomedPhotoRef s;
     previewingPhotoRef := previewingPhotoRef s;
     lShapeHoldTimeRef := lShapeHoldTimeRef s;
     pinchHoldTimeRef := pinchHoldTimeRef s;
     lastCaptureTimeRef := lastCaptureTimeRef s; timers := timers s;
     randomCalls := randomCalls s |}.

Definition with_countdown (v : option Z) (s : App) : App :=
  {| appMode := appMode s; captureState := captureState s; countdown := v;
     flash := flash s; snapshotImage := snapshotImage s;
     camMessage := camMessage s; currentGesture := currentGesture s;
     gestureRef := gestureRef s; rotationSpeedRef := rotationSpeedRef s;
     holdBarRef := holdBarRef s; mainGroupRef := mainGroupRef s;
     cameraRef := cameraRef s; videoRef := videoRef s;
     landmarkerRef := landmarkerRef s; isMountedRef := isMountedRef s;
     canvas2d := canvas2d s; particlesRef := particlesRef s;
     zoomedPhotoRef := zoomedPhotoRef s;
     previewingPhotoRef := previewingPhotoRef s;
     lShapeHoldTimeRef := lShapeHoldTimeRef s;
     pinchHoldTimeRef := pinchHoldTimeRef s;
     lastCaptureTimeRef := lastCaptureTimeRef s; timers := timers s;
     randomCalls := randomCalls s |}.

Definition with_flash (v : bool) (s : App) : App :=
  {| appMode := appMode s; captureState := captureState s;
     countdown := countdown s; flash := v; snapshotImage := snapshotImage s;
     camMessage := camMessage s; currentGesture := currentGesture s;
     gestureRef := gestureRef s; rotationSpeedRef := rotationSpeedRef s;
     holdBarRef := holdBarRef s; mainGroupRef := mainGroupRef s;
     cameraRef := cameraRef s; videoRef := videoRef s;
     landmarkerRef := landmarkerRef s; isMountedRef := isMountedRef s;
     canvas2d := canvas2d s; particlesRef := particlesRef s;
     zoomedPhotoRef := zoomedPhotoRef s;
     previewingPhotoRef := previewingPhotoRef s;
     lShapeHoldTimeRef := lShapeHoldTimeRef s;
     pinchHoldTimeRef := pinchHoldTimeRef s;
     lastCaptureTimeRef := lastCaptureTimeRef s; timers := timers s;
     randomCalls := randomCalls s |}.

Definition with_snapshotImage (v : option Snapshot) (s : App) : App :=
  {| appMode := appMode s; captureState := captureState s;
     countdown := countdown s; flash := flash s; snapshotImage := v;
     camMessage := camMessage s; currentGesture := currentGesture s;
     gestureRef := gestureRef s; rotationSpeedRef := rotationSpeedRef s;
     holdBarRef := holdBarRef s; mainGroupRef := mainGroupRef s;
     cameraRef := cameraRef s; videoRef := videoRef s;
     landmarkerRef := landmarkerRef s; isMountedRef := isMountedRef s;
     canvas2d := canvas2d s; particlesRef := particlesRef s;
     zoomedPhotoRef := zoomedPhotoRef s;
     previewingPhotoRef := previewingPhotoRef s;
     lShapeHoldTimeRef := lShapeHoldTimeRef s;
     pinchHoldTimeRef := pinchHoldTimeRef s;
     lastCaptureTimeRef := lastCaptureTimeRef s; timers := timers s;
     randomCalls := randomCalls s |}.

Definition with_camMessage (v : string) (s : App) : App :=
  {| appMode := appMode s; captureState := captureState s;
     countdown := countdown s; flash := flash s;
     snapshotImage := snapshotImage s; camMessage := v;
     currentGesture := currentGesture s; gestureRef := gestureRef s;
     rotationSpeedRef := rotationSpeedRef s; holdBarRef := holdBarRef s;
     mainGroupRef := mainGroupRef s; cameraRef := cameraRef s;
     videoRef := videoRef s; landmarkerRef := landmarkerRef s;
     isMountedRef := isMountedRef s; canvas2d := canvas2d s;
     particlesRef := particlesRef s; zoomedPhotoRef := zoomedPhotoRef s;
     previewingPhotoRef := previewingPhotoRef s;
     lShapeHoldTimeRef := lShapeHoldTimeRef s;
     pinchHoldTimeRef := pinchHoldTimeRef s;
     lastCaptureTimeRef := lastCaptureTimeRef s; timers := timers s;
     randomCalls := randomCalls s |}.

Definition with_currentGesture (v : GestureType) (s : App) : App :=
  {| appMode := appMode s; captureState := captureState s;
     countdown := countdown s; flash := flash s;
     snapshotImage := snapshotImage s; camMessage := camMessage s;
     currentGesture := v; gestureRef := gestureRef s;
     rotationSpeedRef := rotationSpeedRef s; holdBarRef := holdBarRef s;
     mainGroupRef := mainGroupRef s; cameraRef := cameraRef s;
     videoRef := videoRef s; landmarkerRef := landmarkerRef s;
     isMountedRef := isMountedRef s; canvas2d := canvas2d s;
     particlesRef := particlesRef s; zoomedPhotoRef := zoomedPhotoRef s;
     previewingPhotoRef := previewingPhotoRef s;
     lShapeHoldTimeRef := lShapeHoldTimeRef s;
     pinchHoldTimeRef := pinchHoldTimeRef s;
     lastCaptureTimeRef := lastCaptureTimeRef s; timers := timers s;
     randomCalls := randomCalls s |}.

Definition with_gestureRef (v : GestureType) (s : App) : App :=
  {| appMode := appMode s; captureState := captureState s;
     countdown := countdown s; flash := flash s;
     snapshotImage := snapshotImage s; camMessage := camMessage s;
     currentGesture := currentGesture s; gestureRef := v;
     rotationSpeedRef := rotationSpeedRef s; holdBarRef := holdBarRef s;
     mainGroupRef := mainGroupRef s; cameraRef := cameraRef s;
     videoRef := videoRef s; landmarkerRef := landmarkerRef s;
     isMountedRef := isMountedRef s; canvas2d := canvas2d s;
     particlesRef := particlesRef s; zoomedPhotoRef := zoomedPhotoRef s;
     previewingPhotoRef := previewingPhotoRef s;
     lShapeHoldTimeRef := lShapeHoldTimeRef s;
     pinchHoldTimeRef := pinchHoldTimeRef s;
     lastCaptureTimeRef := lastCaptureTimeRef s; timers := timers s;
     randomCalls := randomCalls s |}.

Definition with_rotationSpeedRef (v : R) (s : App) : App :=
  {| appMode := appMode s; captureState := captureState s;
     countdown := countdown s; flash := flash s;
     snapshotImage := snapshotImage s; camMessage := camMessage s;
     currentGesture := currentGesture s; gestureRef := gestureRef s;
     rotationSpeedRef := v; holdBarRef := holdBarRef s;
     mainGroupRef := mainGroupRef s; cameraRef := cameraRef s;
     videoRef := videoRef s; landmarkerRef := landmarkerRef s;
     isMountedRef := isMountedRef s; canvas2d := canvas2d s;
     particlesRef := particlesRef s; zoomedPhotoRef := zoomedPhotoRef s;
     previewingPhotoRef := previewingPhotoRef s;
     lShapeHoldTimeRef := lShapeHoldTimeRef s;
     pinchHoldTimeRef := pinchHoldTimeRef s;
     lastCaptureTimeRef := lastCaptureTimeRef s; timers := timers s;
     randomCalls := randomCalls s |}.

Definition with_holdBarRef (v : option R) (s : App) : App :=
  {| appMode := appMode s; captureState := captureState s;
     countdown := countdown s; flash := flash s;
     snapshotImage := snapshotImage s; camMessage := camMessage s;
     currentGesture := currentGesture s; gestureRef := gestureRef s;
     rotationSpeedRef := rotationSpeedRef s; holdBarRef := v;
     mainGroupRef := mainGroupRef s; cameraRef := cameraRef s;
     videoRef := videoRef s; landmarkerRef := landmarkerRef s;
     isMountedRef := isMountedRef s; canvas2d := canvas2d s;
     particlesRef := particlesRef s; zoomedPhotoRef := zoomedPhotoRef s;
     previewingPhotoRef := previewingPhotoRef s;
     lShapeHoldTimeRef := lShapeHoldTimeRef s;
     pinchHoldTimeRef := pinchHoldTimeRef s;
     lastCaptureTimeRef := lastCaptureTimeRef s; timers := timers s;
     randomCalls := randomCalls s |}.

Definition with_particlesRef (v : list Particle) (s : App) : App :=
  {| appMode := appMode s; captureState := captureState s;
     countdown := countdown s; flash := flash s;
     snapshotImage := snapshotImage s; camMessage := camMessage s;
     currentGesture := currentGesture s; gestureRef := gestureRef s;
     rotationSpeedRef := rotationSpeedRef s; holdBarRef := holdBarRef s;
     mainGroupRef := mainGroupRef s; cameraRef := cameraRef s;
     videoRef := videoRef s; landmarkerRef := landmarkerRef s;
     isMountedRef := isMountedRef s; canvas2d := canvas2d s;
     particlesRef := v; zoomedPhotoRef := zoomedPhotoRef s;
     previewingPhotoRef := previewingPhotoRef s;
     lShapeHoldTimeRef := lShapeHoldTimeRef s;
     pinchHoldTimeRef := pinchHoldTimeRef s;
     lastCaptureTimeRef := lastCaptureTimeRef s; timers := timers s;
     randomCalls := randomCalls s |}.

Definition with_zoomedPhotoRef (v : option nat) (s : App) : App :=
  {| appMode := appMode s; captureState := captureState s;
     countdown := countdown s; flash := flash s;
     snapshotImage := snapshotImage s; camMessage := camMessage s;
     currentGesture := currentGesture s; gestureRef := gestureRef s;
     rotationSpeedRef := rotationSpeedRef s; holdBarRef := holdBarRef s;
     mainGroupRef := mainGroupRef s; cameraRef := cameraRef s;
     videoRef := videoRef s; landmarkerRef := landmarkerRef s;
     isMountedRef := isMountedRef s; canvas2d := canvas2d s;
     particlesRef := particlesRef s; zoomedPhotoRef := v;
     previewingPhotoRef := previewingPhotoRef s;
     lShapeHoldTimeRef := lShapeHoldTimeRef s;
     pinchHoldTimeRef := pinchHoldTimeRef s;
     lastCaptureTimeRef := lastCaptureTimeRef s; timers := timers s;
     randomCalls := randomCalls s |}.

Definition with_previewingPhotoRef (v : option nat) (s : App) : App :=
  {| appMode := appMode s; captureState := captureState s;
     countdown := countdown s; flash := flash s;
     snapshotImage := snapshotImage s; camMessage := camMessage s;
     currentGesture := currentGesture s; gestureRef := gestureRef s;
     rotationSpeedRef := rotationSpeedRef s; holdBarRef := holdBarRef s;
     mainGroupRef := mainGroupRef s; cameraRef := cameraRef s;
     videoRef := videoRef s; landmarkerRef := landmarkerRef s;
     isMountedRef := isMountedRef s; canvas2d := canvas2d s;
     particlesRef := particlesRef s; zoomedPhotoRef := zoomedPhotoRef s;
     previewingPhotoRef := v; lShapeHoldTimeRef := lShapeHoldTimeRef s;
     pinchHoldTimeRef := pinchHoldTimeRef s;
     lastCaptureTimeRef := lastCaptureTimeRef s; timers := timers s;
     randomCalls := randomCalls s |}.

Definition with_lShapeHoldTimeRef (v : Z) (s : App) : App :=
  {| appMode := appMode s; captureState := captureState s;
     countdown := countdown s; flash := flash s;
     snapshotImage := snapshotImage s; camMessage := camMessage s;
     currentGesture := currentGesture s; gestureRef := gestureRef s;
     rotationSpeedRef := rotationSpeedRef s; holdBarRef := holdBarRef s;
     mainGroupRef := mainGroupRef s; cameraRef := cameraRef s;
     videoRef := videoRef s; landmarkerRef := landmarkerRef s;
     isMountedRef := isMountedRef s; canvas2d := canvas2d s;
     particlesRef := particlesRef s; zoomedPhotoRef := zoomedPhotoRef s;
     previewingPhotoRef := previewingPhotoRef s; lShapeHoldTimeRef := v;
     pinchHoldTimeRef := pinchHoldTimeRef s;
     lastCaptureTimeRef := lastCaptureTimeRef s; timers := timers s;
     randomCalls := randomCalls s |}.

Definition with_pinchHoldTimeRef (v : Z) (s : App) : App :=
  {| appMode := appMode s; captureState := captureState s;
     countdown := countdown s; flash := flash s;
     snapshotImage := snapshotImage s; camMessage := camMessage s;
     currentGesture := currentGesture s; gestureRef := gestureRef s;
     rotationSpeedRef := rotationSpeedRef s; holdBarRef := holdBarRef s;
     mainGroupRef := mainGroupRef s; cameraRef := cameraRef s;
     videoRef := videoRef s; landmarkerRef := landmarkerRef s;
     isMountedRef := isMountedRef s; canvas2d := canvas2d s;
     particlesRef := particlesRef s; zoomedPhotoRef := zoomedPhotoRef s;
     previewingPhotoRef := previewingPhotoRef s;
     lShapeHoldTimeRef := lShapeHoldTimeRef s; pinchHoldTimeRef := v;
     lastCaptureTimeRef := lastCaptureTimeRef s; timers := timers s;
     randomCalls := randomCalls s |}.

Definition with_lastCaptureTimeRef (v : Z) (s : App) : App :=
  {| appMode := appMode s; captureState := captureState s;
     countdown := countdown s; flash := flash s;
     snapshotImage := snapshotImage s; camMessage := camMessage s;
     currentGesture := currentGesture s; gestureRef := gestureRef s;
     rotationSpeedRef := rotationSpeedRef s; holdBarRef := holdBarRef s;
     mainGroupRef := mainGroupRef s; cameraRef := cameraRef s;
     videoRef := videoRef s; landmarkerRef := landmarkerRef s;
     isMountedRef := isMountedRef s; canvas2d := canvas2d s;
     particlesRef := particlesRef s; zoomedPhotoRef := zoomedPhotoRef s;
     previewingPhotoRef := previewingPhotoRef s;
     lShapeHoldTimeRef := lShapeHoldTimeRef s;
     pinchHoldTimeRef := pinchHoldTimeRef s; lastCaptureTimeRef := v;
     timers := timers s; randomCalls := randomCalls s |}.

Definition with_timers (v : list (Z * TimerAction)) (s : App) : App :=
  {| appMode := appMode s; captureState := captureState s;
     countdown := countdown s; flash := flash s;
     snapshotImage := snapshotImage s; camMessage := camMessage s;
     currentGesture := currentGesture s; gestureRef := gestureRef s;
     rotationSpeedRef := rotationSpeedRef s; holdBarRef := holdBarRef s;
     mainGroupRef := mainGroupRef s; cameraRef := cameraRef s;
     videoRef := videoRef s; landmarkerRef := landmarkerRef s;
     isMountedRef := isMountedRef s; canvas2d := canvas2d s;
     particlesRef := particlesRef s; zoomedPhotoRef := zoomedPhotoRef s;
     previewingPhotoRef := previewingPhotoRef s;
     lShapeHoldTimeRef := lShapeHoldTimeRef s;
     pinchHoldTimeRef := pinchHoldTimeRef s;
     lastCaptureTimeRef := lastCaptureTimeRef s; timers := v;
     randomCalls := randomCalls s |}.

Definition with_randomCalls (v : nat) (s : App) : App :=
  {| appMode := appMode s; captureState := captureState s;
     countdown := countdown s; flash := flash s;
     snapshotImage := snapshotImage s; camMessage := camMessage s;
     currentGesture := currentGesture s; gestureRef := gestureRef s;
     rotationSpeedRef := rotationSpeedRef s; holdBarRef := holdBarRef s;
     mainGroupRef := mainGroupRef s; cameraRef := cameraRef s;
     videoRef := videoRef s; landmarkerRef := landmarkerRef s;
     isMountedRef := isMountedRef s; canvas2d := canvas2d s;
     particlesRef := particlesRef s; zoomedPhotoRef := zoomedPhotoRef s;
     previewingPhotoRef := previewingPhotoRef s;
     lShapeHoldTimeRef := lShapeHoldTimeRef s;
     pinchHoldTimeRef := pinchHoldTimeRef s;
     lastCaptureTimeRef := lastCaptureTimeRef s; timers := timers s;
     randomCalls := v |}.

(** Statements in sequence: [s |> f |> g] applies [f], then [g]. *)
Notation "s |> f" := (f s) (at level 45, left associativity, only parsing).

#[export] Instance CaptureState_eq_dec : EqDecision CaptureState.
Proof. solve_decision. Defined.

(** ** Timers *)

(** The queue keeps callbacks by due time; callbacks due at the same time
    stay in the order in which they were set. *)
Fixpoint insertTimer (due : Z) (a : TimerAction) (q : list (Z * TimerAction))
  : list (Z * TimerAction) :=
  match q with
  | [] => [(due, a)]
  | (d, b) :: q' =>
      if (d <=? due)%Z then (d, b) :: insertTimer due a q'
      else (due, a) :: q
  end.

(** [setTimeout(a, delay)] called at time [now]. *)
Definition setTimeout (a : TimerAction) (delay now : Z) (s : App) : App :=
  with_timers (insertTimer (now + delay) a (timers s)) s.

Definition isCountdownTick (e : Z * TimerAction) : bool :=
  match snd e with CountdownTick => true | _ => false end.

(** [clearTimeout(timer)], the cleanup of the countdown effect. *)
Definition clearCountdownTimer (s : App) : App :=
  with_timers (List.filter (fun e => negb (isCountdownTick e)) (timers s)) s.

(** ** Photography logic *)

(** [triggerCountdown], called at time [now] ([Date.now()]). *)
Definition triggerCountdown (now : Z) (s : App) : App :=
  if decide (captureState s <> IDLE) then s
  else if (now - lastCaptureTimeRef s <? 4000)%Z then s
  else s |> with_captureState COUNTDOWN
         |> with_countdown (Some 3%Z)
         |> with_camMessage "SMILE!"%string.

(** The source square of [drawImage]. *)
Definition centreCrop (vid : Video) : Snapshot :=
  let m := Z.min (videoWidth vid) (videoHeight vid) in
  {| sx := IZR (videoWidth vid - m) / 2;
     sy := IZR (videoHeight vid - m) / 2;
     minDim := IZR m |}.

(** [if (newP.mesh) newP.mesh.visible = true] *)
Definition showMesh (p : Particle) : Particle :=
  {| mesh := {| model := model (mesh p); position := position (mesh p);
                visible := true |};
     type := type p; treePos := treePos p; scatterPos := scatterPos p;
     textPos := textPos p; velocity := velocity p;
     rotationSpeed := rotationSpeed p; isPhoto := isPhoto p |}.

(** [particlesRef.current.filter(p => p.isPhoto)], as indices counted from
    [i]. *)
Fixpoint photoIndices (i : nat) (ps : list Particle) : list nat :=
  match ps with
  | [] => []
  | p :: ps' =>
      if isPhoto p then i :: photoIndices (S i) ps'
      else photoIndices (S i) ps'
  end.

(** [if (holdBarRef.current) holdBarRef.current.style.width = ...] *)
Definition setHoldBar (pct : R) (s : App) : App :=
  with_holdBarRef (option_map (fun _ => pct) (holdBarRef s)) s.

(** What [landmarker.detectForVideo] does on a frame. *)
Inductive Detection : Type :=
  | DetectThrows
  | NoHand
  | Hand (l : Landmarks).

Section Behaviour.

Variable rand : nat -> R.

(** The particle [newP] that [takePhoto] builds: the polaroid card, placed
    at the preview position and hidden, and the three targets drawn for
    it.  The video frame is drawn on the card when a 2D context exists and
    the video has a frame ([readyState >= 2]). *)
Definition newPhoto (s : App) (mainGroup : Group) (vid : Video) : Particle :=
  let frameDrawn := canvas2d s && (2 <=? readyState vid)%Z in
  let m := {| model := Polaroid frameDrawn;
              position := worldToLocal mainGroup PREVIEW_WORLD_POS;
              visible := false |} in
  let k := randomCalls s in
  let tP := photoTreeTarget (rand k) (rand (k + 1)) (rand (k + 2)) in
  let tx :=
    Vec3 ((rand (k + 3) - 0.5) * 40) ((rand (k + 4) - 0.5) * 15) 0 in
  {| mesh := m; type := PHOTO; treePos := tP;
     scatterPos := Vec3 ((rand (k + 5) - 0.5) * 140)
                        ((rand (k + 6) - 0.5) * 140)
                        ((rand (k + 7) - 0.5) * 140);
     textPos := tx; velocity := origin; rotationSpeed := origin;
     isPhoto := true |}.

(** [takePhoto], called at time [now]. *)
Definition takePhoto (now : Z) (s : App) : App :=
  match mainGroupRef s, cameraRef s, videoRef s with
  | Some mainGroup, Some _, Some vid =>
      (* 1. Flash phase *)
      let s1 := s |> with_captureState FLASH
                  |> with_flash true
                  |> with_countdown None
                  |> with_camMessage ""%string in
      (* 2. Capture content *)
      let s2 :=
        if canvas2d s && (2 <=? readyState vid)%Z
        then with_snapshotImage (Some (centreCrop vid)) s1
        else s1 in
      (* 3. Create 3D object *)
      let newP := newPhoto s mainGroup vid in
      let idx := length (particlesRef s) in
      s2 |> with_randomCalls (randomCalls s + 8)
         |> with_particlesRef (particlesRef s ++ [newP])
         |> with_previewingPhotoRef (Some idx)
         (* 4. Timing *)
         |> setTimeout EndFlash 150 now
         |> setTimeout (FlySequence idx) 4500 now
  | _, _, _ => s
  end.

(** The effect on [[countdown, captureState]]. *)
Definition countdownEffect (now : Z) (s : App) : App :=
  match captureState s, countdown s with
  | COUNTDOWN, Some c =>
      if (0 <? c)%Z then setTimeout CountdownTick 1000 now s
      else takePhoto now s
  | _, _ => s
  end.

(** A render after a state update: when [countdown] or [captureState]
    changed, the previous effect is cleaned up and the effect runs. *)
Definition commit (now : Z) (before after : App) : App :=
  if decide (countdown after = countdown before /\
             captureState after = captureState before)
  then after
  else countdownEffect now (clearCountdownTimer after).

(** The body of a timer callback, run at time [now]. *)
Definition fire (now : Z) (a : TimerAction) (s : App) : App :=
  match a with
  | CountdownTick =>
      with_countdown
        (Some (match countdown s with Some c => c - 1 | None => 0 end)%Z) s
  | EndFlash =>
      s |> with_flash false |> with_captureState DEVELOPING
  | FlySequence newP =>
      s |> with_captureState FLYING
        |> with_snapshotImage None
        |> with_particlesRef (alter showMesh newP (particlesRef s))
        |> with_previewingPhotoRef None
        |> with_lastCaptureTimeRef now
        |> with_gestureRef NONE
        |> with_currentGesture NONE
        |> with_lShapeHoldTimeRef 0%Z
        |> setTimeout BackToIdle 1000 now
  | BackToIdle =>
      with_captureState IDLE s
  end.

(** Time passes until [t]: the callbacks due by then run in order, each
    followed by its render. *)
Fixpoint advance (fuel : nat) (t : Z) (s : App) : App :=
  match fuel with
  | O => s
  | S fuel' =>
      match timers s with
      | (due, a) :: rest =>
          if (due <=? t)%Z then
            let s' := with_timers rest s in
            advance fuel' t (commit due s' (fire due a s'))
          else s
      | [] => s
      end
  end.

(** The capture states entered by the callbacks run by [advance], with
    the times at which they ran. *)
Fixpoint captureLog (fuel : nat) (t : Z) (s : App)
  : list (Z * CaptureState) :=
  match fuel with
  | O => []
  | S fuel' =>
      match timers s with
      | (due, a) :: rest =>
          if (due <=? t)%Z then
            let s' := with_timers rest s in
            let s'' := commit due s' (fire due a s') in
            (due, captureState s'') :: captureLog fuel' t s''
          else []
      | [] => []
      end
  end.

(** The manual trigger: [onClick={triggerCountdown}] and its render. *)
Definition click (now : Z) (s : App) : App :=
  commit now s (triggerCountdown now s).

(** *** The prediction loop *)

(** The [if]/[else if] chain on [gest].  The loop keeps the
    [triggerCountdown] of the first render, which sees [captureState] as
    IDLE; it is reached only on frames that passed the gate of [predictLoop]
    on [captureStateRef], where the field [captureState] is IDLE too. *)
Definition onGesture (now : Z) (gest : GestureType) (s : App) : App :=
  match gest with
  | OPEN_PALM =>
      s |> with_pinchHoldTimeRef 0%Z
        |> with_appMode SCATTER
        |> with_zoomedPhotoRef None
  | FIST =>
      s |> with_pinchHoldTimeRef 0%Z
        |> with_appMode TREE
        |> with_zoomedPhotoRef None
  | THUMBS_UP =>
      s |> with_pinchHoldTimeRef 0%Z
        |> with_appMode TEXT
        |> with_zoomedPhotoRef None
  | PINCH =>
      let s1 := with_pinchHoldTimeRef (pinchHoldTimeRef s + 1)%Z s in
      if (15 <? pinchHoldTimeRef s1)%Z
         && bool_decide (zoomedPhotoRef s1 = None)
      then
        let phs := photoIndices 0 (particlesRef s1) in
        if (0 <? length phs)%nat then
          s1 |> with_zoomedPhotoRef
                  (Some (pick phs (rand (randomCalls s1))))
             |> with_randomCalls (S (randomCalls s1))
        else s1
      else s1
  | L_SHAPE =>
      let s1 := s |> with_pinchHoldTimeRef 0%Z
                  |> with_camMessage "HOLD STEADY..."%string
                  |> with_lShapeHoldTimeRef (lShapeHoldTimeRef s + 1)%Z in
      let s2 :=
        if (30 <? lShapeHoldTimeRef s1)%Z then triggerCountdown now s1
        else s1 in
      let pct := JS.min (IZR (lShapeHoldTimeRef s2) / 30 * 100) 100 in
      setHoldBar pct s2
  | NONE =>
      s |> with_lShapeHoldTimeRef 0%Z
        |> with_pinchHoldTimeRef 0%Z
        |> setHoldBar 0
        |> with_camMessage "NOEL ELEGANCE"%string
  end.

(** One run of [predictLoop] at time [now]; [det] is what the landmarker
    does if it is called. *)
Definition predictLoop (now : Z) (det : Detection) (s : App) : App :=
  if negb (isMountedRef s) then s
  else
    match videoRef s with
    | Some vid =>
        if (2 <=? readyState vid)%Z && landmarkerRef s then
          if bool_decide (captureState s <> IDLE)
             || (now - lastCaptureTimeRef s <? 2000)%Z
          then s
          else
            match det with
            | DetectThrows => s
            | Hand l =>
                let gest := classify l in
                s |> with_gestureRef gest
                  |> with_currentGesture gest
                  |> with_rotationSpeedRef ((0.5 - lm_x (wrist l)) * 0.035)
                  |> onGesture now gest
            | NoHand =>
                s |> with_currentGesture NONE |> setHoldBar 0
            end
        else s
    | None => s
    end.

(** A frame of the prediction loop and the render it causes. *)
Definition frame (now : Z) (det : Detection) (s : App) : App :=
  commit now s (predictLoop now det s).

End Behaviour.

(** The states reached from a state [s0] in which [takePhoto] has run at
    time [t0] for the particle [idx], as its callbacks run: after the
    150 ms callback, after the 4500 ms callback, and after the 1000 ms
    callback set by the latter. *)
Definition developing (t0 : Z) (idx : nat) (s0 : App) : App :=
  with_timers [((t0 + 4500)%Z, FlySequence idx)] s0
    |> with_flash false |> with_captureState DEVELOPING.

Definition flying (t0 : Z) (idx : nat) (s0 : App) : App :=
  fire (t0 + 4500) (FlySequence idx) (with_timers [] (developing t0 idx s0)).

Definition settled (t0 : Z) (idx : nat) (s0 : App) : App :=
  with_captureState IDLE (with_timers [] (flying t0 idx s0)).

(** A capture triggered at time [T] is under way: the capture state is not
    IDLE, no callback that returns to IDLE is pending, and the fly sequence,
    if set, is due no earlier than 4500 ms after the trigger. *)
Definition pendingAfter (T : Z) (e : Z * TimerAction) : Prop :=
  (T <= fst e)%Z /\
  match snd e with
  | BackToIdle => False
  | FlySequence _ => (T + 4500 <= fst e)%Z
  | _ => True
  end.

Definition capturing (T : Z) (s : App) : Prop :=
  captureState s <> IDLE /\ Forall (pendingAfter T) (timers s).

(** The gesture seen on a frame, if a hand was found. *)
Definition detected (det : Detection) : option GestureType :=
  match det with
  | Hand l => Some (classify l)
  | _ => None
  end.

Definition isModeGesture (g : GestureType) : bool :=
  match g with
  | OPEN_PALM | FIST | THUMBS_UP => true
  | _ => false
  end.


(** The conditions under which a run of [predictLoop] at time [now] reaches
    the landmarker: the component is mounted, the video has a frame, a
    landmarker exists, no capture is in progress and the last one ended at
    least two seconds ago. *)
Definition listening (now : Z) (s : App) : Prop :=
  isMountedRef s = true /\
  (exists vid, videoRef s = Some vid /\ (2 <= readyState vid)%Z) /\
  landmarkerRef s = true /\
  captureState s = IDLE /\
  (2000 <= now - lastCaptureTimeRef s)%Z.

(** The missing resources of the specification: no scene group, or no camera
    frame ready. *)
Definition resourceMissing (s : App) : Prop :=
  mainGroupRef s = None \/
  match videoRef s with
  | Some vid => (readyState vid < 2)%Z
  | None => True
  end.

(** ** Sample inputs *)

Definition sampleVideo : Video :=
  {| readyState := 4; videoWidth := 640; videoHeight := 480 |}.

(** A video element that has no frame yet. *)
Definition blankVideo : Video :=
  {| readyState := 0; videoWidth := 0; videoHeight := 0 |}.

Definition sampleGroup : Group := {| worldToLocal := fun v => v |}.

Definition samplePhoto : Particle :=
  {| mesh := {| model := Polaroid true; position := origin; visible := true |};
     type := PHOTO; treePos := Vec3 3 0 4; scatterPos := Vec3 10 20 30;
     textPos := Vec3 1 2 0; velocity := origin; rotationSpeed := origin;
     isPhoto := true |}.

(** An idle application in tree mode, camera and landmarker running, one
    photo on the tree and zoomed, both hold counters part-way. *)
Definition sampleApp : App :=
  {| appMode := TREE; captureState := IDLE; countdown := None;
     flash := false; snapshotImage := None;
     camMessage := "NOEL ELEGANCE"%string;
     currentGesture := NONE; gestureRef := NONE;
     rotationSpeedRef := 0.002; holdBarRef := Some 40;
     mainGroupRef := Some sampleGroup; cameraRef := Some PerspectiveCamera;
     videoRef := Some sampleVideo; landmarkerRef := true;
     isMountedRef := true; canvas2d := true;
     particlesRef := [samplePhoto]; zoomedPhotoRef := Some 0%nat;
     previewingPhotoRef := None;
     lShapeHoldTimeRef := 12; pinchHoldTimeRef := 7;
     lastCaptureTimeRef := 0; timers := []; randomCalls := 0 |}.

(** The same application whose video element has no frame ready. *)
Definition blankVideoApp : App :=
  {| appMode := TREE; captureState := COUNTDOWN; countdown := Some 0%Z;
     flash := false; snapshotImage := None;
     camMessage := "SMILE!"%string;
     currentGesture := NONE; gestureRef := NONE;
     rotationSpeedRef := 0.002; holdBarRef := Some 0;
     mainGroupRef := Some sampleGroup; cameraRef := Some PerspectiveCamera;
     videoRef := Some blankVideo; landmarkerRef := true;
     isMountedRef := true; canvas2d := true;
     particlesRef := [samplePhoto]; zoomedPhotoRef := None;
     previewingPhotoRef := None;
     lShapeHoldTimeRef := 0; pinchHoldTimeRef := 0;
     lastCaptureTimeRef := 0; timers := []; randomCalls := 0 |}.

(** An application whose scene group was never created. *)
Definition noSceneApp : App :=
  {| appMode := LOADING; captureState := COUNTDOWN; countdown := Some 0%Z;
     flash := false; snapshotImage := None;
     camMessage := "SMILE!"%string;
     currentGesture := NONE; gestureRef := NONE;
     rotationSpeedRef := 0.002; holdBarRef := Some 0;
     mainGroupRef := None; cameraRef := None;
     videoRef := Some sampleVideo; landmarkerRef := false;
     isMountedRef := true; canvas2d := true;
     particlesRef := []; zoomedPhotoRef := None;
     previewingPhotoRef := None;
     lShapeHoldTimeRef := 0; pinchHoldTimeRef := 0;
     lastCaptureTimeRef := 0; timers := []; randomCalls := 0 |}.



(** A random source that always answers [0]. *)
Definition zeroRand : nat -> R := fun _ => 0.

(** ** The prediction loop over several frames *)

(** The part of [listening] that does not change from frame to frame: the
    component is mounted, the video has a frame and a landmarker exists. *)
Definition cameraReady (s : App) : Prop :=
  isMountedRef s = true /\
  (exists vid, videoRef s = Some vid /\ (2 <= readyState vid)%Z) /\
  landmarkerRef s = true.



(** [sampleApp] with both hold counters at zero and no photo zoomed. *)
Definition restingApp : App :=
  sampleApp |> with_lShapeHoldTimeRef 0%Z |> with_pinchHoldTimeRef 0%Z
            |> with_zoomedPhotoRef None.

(** * Properties *)

(** ** Real-number facts used by the classifier *)

Lemma ltb_true (a b : R) : a < b -> (a <? b) = true.
Proof.
  intros H. unfold JS.ltb.
  destruct (Rlt_dec a b); [reflexivity | contradiction].
Qed.

Lemma ltb_false (a b : R) : ~ a < b -> (a <? b) = false.
Proof.
  intros H. unfold JS.ltb.
  destruct (Rlt_dec a b); [contradiction | reflexivity].
Qed.

Lemma ltb_true_iff (a b : R) : (a <? b) = true <-> a < b.
Proof.
  split; [| apply ltb_true].
  unfold JS.ltb. destruct (Rlt_dec a b); [trivial | discriminate].
Qed.

Lemma ltb_false_iff (a b : R) : (a <? b) = false <-> ~ a < b.
Proof.
  split; [| apply ltb_false].
  unfold JS.ltb. destruct (Rlt_dec a b); [discriminate | trivial].
Qed.

Lemma gtb_true_iff (a b : R) : (a >? b) = true <-> a > b.
Proof. unfold JS.gtb. rewrite ltb_true_iff. reflexivity. Qed.

Lemma gtb_false_iff (a b : R) : (a >? b) = false <-> ~ a > b.
Proof. unfold JS.gtb. rewrite ltb_false_iff. reflexivity. Qed.

Lemma hypot_vertical (a d : R) : JS.hypot (a - a) d = Rabs d.
Proof.
  unfold JS.hypot.
  replace ((a - a) * (a - a) + d * d) with (Rsqr d) by (unfold Rsqr; ring).
  apply sqrt_Rsqr_abs.
Qed.

Ltac hand_eval :=
  cbv [classify pinchRule thumbsUpRule fistRule openPalmRule lShapeRule
       fingersCurled thumbPointingUp pinchDist tE tE_Legacy iE mE rE pE isEx
       wrist tTip iTip mTip rTip pTip tIP tMCP hand lm_x lm_y
       fistHand thumbsUpHand openPalmHand pinchPalmHand lShapeHand otherHand
       bentThumbHand extendedBy allFourCurled rule thumbsUpAsSpecified
       thumbsUpAsCoded];
  rewrite ?hypot_vertical;
  unfold JS.gtb, JS.ltb, Rabs;
  repeat match goal with
         | |- context [Rcase_abs ?a] =>
             destruct (Rcase_abs a); try (exfalso; lra)
         end;
  repeat match goal with
         | |- context [Rlt_dec ?a ?b] =>
             destruct (Rlt_dec a b); try (exfalso; lra)
         end;
  cbn [andb negb orb].

Lemma classify_fistHand : classify fistHand = FIST.
Proof. hand_eval. reflexivity. Qed.
Lemma classify_thumbsUpHand : classify thumbsUpHand = THUMBS_UP.
Proof. hand_eval. reflexivity. Qed.
Lemma classify_openPalmHand : classify openPalmHand = OPEN_PALM.
Proof. hand_eval. reflexivity. Qed.
Lemma classify_pinchPalmHand : classify pinchPalmHand = PINCH.
Proof. hand_eval. reflexivity. Qed.
Lemma classify_lShapeHand : classify lShapeHand = L_SHAPE.
Proof. hand_eval. reflexivity. Qed.
Lemma classify_otherHand : classify otherHand = NONE.
Proof. hand_eval. reflexivity. Qed.
Lemma classify_bentThumbHand : classify bentThumbHand = FIST.
Proof. hand_eval. reflexivity. Qed.

(** ** The classifier *)

Lemma isEx_extended (l : Landmarks) (tip mcp : nat) :
  isEx l (l tip) mcp = true <-> extendedBy 1.1 l tip mcp.
Proof. unfold isEx, extendedBy, wrist. apply gtb_true_iff. Qed.

Lemma isEx_curled (l : Landmarks) (tip mcp : nat) :
  isEx l (l tip) mcp = false <-> ~ extendedBy 1.1 l tip mcp.
Proof. unfold isEx, extendedBy, wrist. apply gtb_false_iff. Qed.

Lemma tE_extended (l : Landmarks) : tE l = true <-> extendedBy 1.2 l 4 3.
Proof. unfold tE, extendedBy, wrist, tTip. apply gtb_true_iff. Qed.

Lemma fingersCurled_spec (l : Landmarks) :
  fingersCurled l = true <-> allFourCurled l.
Proof.
  unfold fingersCurled, allFourCurled, iE, mE, rE, pE, iTip, mTip, rTip, pTip.
  rewrite !andb_true_iff, !negb_true_iff, !isEx_curled. tauto.
Qed.

Lemma thumbPointingUp_spec (l : Landmarks) :
  thumbPointingUp l = true <->
  lm_y (l 4%nat) < lm_y (l 3%nat) /\ lm_y (l 3%nat) < lm_y (l 2%nat).
Proof.
  unfold thumbPointingUp, tTip, tIP, tMCP.
  rewrite andb_true_iff, !ltb_true_iff. reflexivity.
Qed.

Lemma thumbsUpRule_spec (l : Landmarks) :
  thumbsUpRule l = true <-> thumbsUpAsCoded l.
Proof.
  unfold thumbsUpRule, thumbsUpAsCoded.
  rewrite !andb_true_iff, fingersCurled_spec, tE_extended, thumbPointingUp_spec.
  tauto.
Qed.

(** Curled fingers exclude a pinch, which needs three of them stretched. *)
Lemma thumbsUpRule_not_pinch (l : Landmarks) :
  thumbsUpRule l = true -> pinchRule l = false.
Proof.
  unfold thumbsUpRule, pinchRule, fingersCurled.
  destruct (iE l), (mE l), (rE l), (pE l), (pinchDist l <? 0.06);
    simpl; congruence.
Qed.

(** The chain returns the first gesture whose test succeeds. *)
Lemma classify_first_match (l : Landmarks) (g : GestureType) :
  classify l = g <->
  rule g l = true /\
  forall g', (priority g' < priority g)%nat -> rule g' l = false.
Proof.
  split.
  - intros <-. unfold classify.
    destruct (pinchRule l) eqn:Hp; [| destruct (thumbsUpRule l) eqn:Ht;
      [| destruct (fistRule l) eqn:Hf; [| destruct (openPalmRule l) eqn:Ho;
      [| destruct (lShapeRule l) eqn:Hl]]]];
      (split; [simpl; assumption || reflexivity |]);
      intros g'; destruct g'; simpl; intros Hlt; try lia; assumption.
  - intros [Hg Hbefore].
    pose proof (Hbefore PINCH) as Hp.
    pose proof (Hbefore THUMBS_UP) as Ht.
    pose proof (Hbefore FIST) as Hf.
    pose proof (Hbefore OPEN_PALM) as Ho.
    pose proof (Hbefore L_SHAPE) as Hl.
    unfold classify.
    destruct g; simpl in *;
      repeat match goal with
             | H : (?a < ?b)%nat -> _ |- _ =>
                 first [ specialize (H ltac:(lia)) | clear H ]
             end;
      repeat match goal with
             | H : _ = _ |- _ => rewrite H
             end; reflexivity.
Qed.

(** Two tests of the chain that can succeed together are decided for the
    earlier one. *)
Lemma classify_pairwise (l : Landmarks) (g1 g2 : GestureType) :
  (priority g1 < priority g2)%nat -> g2 <> NONE ->
  rule g1 l = true -> rule g2 l = true -> classify l = g1.
Proof.
  intros Hlt Hnone.
  destruct g1, g2; simpl in Hlt; try lia; try congruence; simpl;
    unfold classify, pinchRule, thumbsUpRule, fistRule, openPalmRule,
      lShapeRule, fingersCurled;
    destruct (iE l), (mE l), (rE l), (pE l), (tE l), (tE_Legacy l),
      (pinchDist l <? 0.06), (thumbPointingUp l); simpl; congruence.
Qed.

(** C4. The classifier tests the gestures in the fixed order PINCH,
    THUMBS_UP, FIST, OPEN_PALM, L_SHAPE and answers NONE last; the first
    test that succeeds decides.  Whenever the tests of two gestures succeed
    on the same landmarks, the earlier gesture is returned; in particular
    landmarks that pass the PINCH test and the FIST test yield PINCH. *)
Theorem classifier_priority (l : Landmarks) :
  (forall g, classify l = g <->
             rule g l = true /\
             forall g', (priority g' < priority g)%nat -> rule g' l = false) /\
  (forall g1 g2, (priority g1 < priority g2)%nat -> g2 <> NONE ->
                 rule g1 l = true -> rule g2 l = true -> classify l = g1) /\
  (pinchRule l = true -> fistRule l = true -> classify l = PINCH).
Proof.
  split; [| split].
  - intros g. apply classify_first_match.
  - intros g1 g2. apply classify_pairwise.
  - intros Hp Hf. apply (classify_pairwise l PINCH FIST); simpl;
      [lia | discriminate | assumption | assumption].
Qed.

Lemma classifier_priority_witness :
  rule PINCH pinchPalmHand = true /\
  rule OPEN_PALM pinchPalmHand = true /\
  classify pinchPalmHand = PINCH.
Proof.
  assert (Hp : rule PINCH pinchPalmHand = true) by (hand_eval; reflexivity).
  assert (Ho : rule OPEN_PALM pinchPalmHand = true) by (hand_eval; reflexivity).
  split; [exact Hp | split; [exact Ho |]].
  apply (proj1 (proj2 (classifier_priority pinchPalmHand)) PINCH OPEN_PALM);
    [simpl; lia | discriminate | exact Hp | exact Ho].
Defined.

(** C5, as amended. When the PINCH test fails, the classifier returns
    THUMBS_UP exactly when the thumb is extended under the 1.2 ratio, all
    four fingers are curled, the thumb tip is above the IP joint and the IP
    joint is above the MCP joint. *)
Theorem thumbs_up_exactly_when (l : Landmarks) :
  pinchRule l = false ->
  (classify l = THUMBS_UP <-> thumbsUpAsCoded l).
Proof.
  intros Hp. rewrite <- thumbsUpRule_spec. unfold classify. rewrite Hp.
  destruct (thumbsUpRule l); [tauto |].
  split; [| discriminate].
  destruct (fistRule l), (openPalmRule l), (lShapeRule l); discriminate.
Qed.

Lemma thumbs_up_exactly_when_witness :
  pinchRule thumbsUpHand = false /\
  thumbsUpAsCoded thumbsUpHand /\
  classify thumbsUpHand = THUMBS_UP.
Proof.
  assert (Hp : pinchRule thumbsUpHand = false) by (hand_eval; reflexivity).
  assert (Hc : thumbsUpAsCoded thumbsUpHand).
  { apply thumbsUpRule_spec. hand_eval. reflexivity. }
  split; [exact Hp | split; [exact Hc |]].
  apply (proj2 (thumbs_up_exactly_when thumbsUpHand Hp)). exact Hc.
Defined.

(** C5, as stated, fails: on [bentThumbHand] the PINCH test fails, the thumb
    is extended, the fingers are curled and the thumb tip is above both the
    IP and the MCP joint, yet the classifier answers FIST. *)
Lemma thumbs_up_as_specified_fails :
  ~ (pinchRule bentThumbHand = false ->
     (classify bentThumbHand = THUMBS_UP <-> thumbsUpAsSpecified bentThumbHand)).
Proof.
  intros H.
  assert (Hp : pinchRule bentThumbHand = false) by (hand_eval; reflexivity).
  assert (Hs : thumbsUpAsSpecified bentThumbHand).
  { hand_eval. repeat split; lra. }
  apply H in Hp. apply Hp in Hs. rewrite classify_bentThumbHand in Hs.
  discriminate.
Qed.

(** ** The prediction loop and the mode logic *)

Section FrameProperties.

Variable rand : nat -> R.

(** What a run of [predictLoop] does once the guards are passed. *)
Lemma predictLoop_listening (now : Z) (det : Detection) (s : App) :
  listening now s ->
  predictLoop rand now det s =
  match det with
  | DetectThrows => s
  | Hand l =>
      s |> with_gestureRef (classify l)
        |> with_currentGesture (classify l)
        |> with_rotationSpeedRef ((0.5 - lm_x (wrist l)) * 0.035)
        |> onGesture rand now (classify l)
  | NoHand => s |> with_currentGesture NONE |> setHoldBar 0
  end.
Proof.
  intros (Hm & (vid & Hv & Hr) & Hl & Hc & Ht).
  unfold predictLoop. rewrite Hm, Hv, Hl, Hc. simpl.
  apply Z.leb_le in Hr. rewrite Hr. simpl.
  assert (Hlt : (now - lastCaptureTimeRef s <? 2000)%Z = false)
    by (apply Z.ltb_ge; exact Ht).
  rewrite Hlt. reflexivity.
Qed.

Lemma sampleApp_listening : listening 10000 sampleApp.
Proof.
  unfold listening. simpl. repeat split; try reflexivity.
  - exists sampleVideo. split; [reflexivity |]. simpl. lia.
  - lia.
Qed.

(** [triggerCountdown] leaves the hold counters, the zoom lock and the
    particles alone. *)
Lemma triggerCountdown_frame (now : Z) (s : App) :
  let s' := triggerCountdown now s in
  lShapeHoldTimeRef s' = lShapeHoldTimeRef s /\
  pinchHoldTimeRef s' = pinchHoldTimeRef s /\
  zoomedPhotoRef s' = zoomedPhotoRef s /\
  particlesRef s' = particlesRef s /\
  holdBarRef s' = holdBarRef s /\
  appMode s' = appMode s.
Proof.
  unfold triggerCountdown.
  destruct (decide (captureState s <> IDLE)); [repeat split |].
  destruct (now - lastCaptureTimeRef s <? 4000)%Z; repeat split.
Qed.


(** A frame on which a hand is seen and no rule applies resets both hold
    counters and the hold bar. *)
Lemma none_gesture_resets (now : Z) (l : Landmarks) (s : App) :
  listening now s ->
  classify l = NONE ->
  let s' := predictLoop rand now (Hand l) s in
  lShapeHoldTimeRef s' = 0%Z /\
  pinchHoldTimeRef s' = 0%Z /\
  holdBarRef s' = option_map (fun _ => 0) (holdBarRef s).
Proof.
  intros Hl Hg. cbv zeta. rewrite (predictLoop_listening _ _ _ Hl), Hg.
  repeat split.
Qed.

(** C2: what the code does on a frame without a hand.  The gesture shown
    becomes NONE and the hold bar goes to 0%, and both hold counters keep
    their values: the reset of the NONE branch is not made here. *)
Theorem no_hand_frame_keeps_hold_counters (now : Z) (s : App) :
  listening now s ->
  let s' := predictLoop rand now NoHand s in
  currentGesture s' = NONE /\
  holdBarRef s' = option_map (fun _ => 0) (holdBarRef s) /\
  lShapeHoldTimeRef s' = lShapeHoldTimeRef s /\
  pinchHoldTimeRef s' = pinchHoldTimeRef s.
Proof.
  intros Hl. cbv zeta. rewrite (predictLoop_listening _ _ _ Hl).
  repeat split.
Qed.

End FrameProperties.




Lemma no_hand_frame_keeps_hold_counters_witness :
  listening 10000 sampleApp /\
  holdBarRef (predictLoop zeroRand 10000 NoHand sampleApp) = Some 0 /\
  lShapeHoldTimeRef (predictLoop zeroRand 10000 NoHand sampleApp) = 12%Z /\
  pinchHoldTimeRef (predictLoop zeroRand 10000 NoHand sampleApp) = 7%Z.
Proof.
  split; [exact sampleApp_listening |].
  pose proof (no_hand_frame_keeps_hold_counters zeroRand 10000 sampleApp
                sampleApp_listening) as (_ & Hb & Hl & Hp).
  repeat split; assumption.
Defined.

(** ** The capture sequence *)

Lemma with_timers_same (s : App) : with_timers (timers s) s = s.
Proof. destruct s. reflexivity. Qed.

(** Decide the integer comparisons of the goal from the hypotheses. *)
Ltac zcmp :=
  repeat match goal with
         | |- context [(?a <=? ?b)%Z] =>
             first [ rewrite (proj2 (Z.leb_le a b)) by lia
                   | rewrite (proj2 (Z.leb_gt a b)) by lia ]
         | |- context [(?a <? ?b)%Z] =>
             first [ rewrite (proj2 (Z.ltb_lt a b)) by lia
                   | rewrite (proj2 (Z.ltb_ge a b)) by lia ]
         end.

Section CaptureProperties.

Variable rand : nat -> R.

Lemma triggerCountdown_accepts (now : Z) (s : App) :
  captureState s = IDLE ->
  (4000 <= now - lastCaptureTimeRef s)%Z ->
  triggerCountdown now s =
  s |> with_captureState COUNTDOWN |> with_countdown (Some 3%Z)
    |> with_camMessage "SMILE!"%string.
Proof.
  intros Hc Ht. unfold triggerCountdown. rewrite Hc. simpl. zcmp.
  reflexivity.
Qed.

Lemma triggerCountdown_rejects (now : Z) (s : App) :
  (now - lastCaptureTimeRef s < 4000)%Z \/ captureState s <> IDLE ->
  triggerCountdown now s = s.
Proof.
  intros H. unfold triggerCountdown.
  destruct (decide (captureState s <> IDLE)) as [| Hidle]; [reflexivity |].
  destruct H as [H | H]; [| contradiction]. zcmp. reflexivity.
Qed.

Lemma commit_same (now : Z) (s : App) : commit rand now s s = s.
Proof.
  unfold commit.
  destruct (decide (countdown s = countdown s /\
                    captureState s = captureState s)) as [| H];
    [reflexivity |].
  exfalso. apply H. split; reflexivity.
Qed.

(** C3. A trigger attempt made less than 4000 ms after the time recorded
    for the previous capture, or while the capture state is not IDLE, is
    rejected: [triggerCountdown] and the render that follows leave the
    whole state as it was, so an IDLE capture state stays IDLE and
    COUNTDOWN is not entered. *)
Theorem trigger_rejected_during_cooldown (now : Z) (s : App) :
  (now - lastCaptureTimeRef s < 4000)%Z \/ captureState s <> IDLE ->
  triggerCountdown now s = s /\
  click rand now s = s /\
  (captureState s = IDLE -> captureState (click rand now s) = IDLE) /\
  (captureState s <> COUNTDOWN ->
   captureState (click rand now s) <> COUNTDOWN).
Proof.
  intros H. pose proof (triggerCountdown_rejects now s H) as Ht.
  assert (Hc : click rand now s = s)
    by (unfold click; rewrite Ht; apply commit_same).
  rewrite Hc. repeat split; trivial.
Qed.

(** The same on the gesture path: an L-shape frame whose hold counter passes
    the threshold during the cooldown leaves the capture state IDLE. *)
Lemma lshape_hold_rejected_during_cooldown
      (now : Z) (l : Landmarks) (s : App) :
  listening now s ->
  classify l = L_SHAPE ->
  (now - lastCaptureTimeRef s < 4000)%Z ->
  captureState (frame rand now (Hand l) s) = IDLE /\
  countdown (frame rand now (Hand l) s) = countdown s /\
  lShapeHoldTimeRef (frame rand now (Hand l) s)
    = (lShapeHoldTimeRef s + 1)%Z.
Proof.
  intros Hl Hg Hcool.
  assert (Hidle : captureState s = IDLE)
    by (destruct Hl as (_ & _ & _ & H & _); exact H).
  assert (Hp : captureState (predictLoop rand now (Hand l) s) = IDLE /\
               countdown (predictLoop rand now (Hand l) s) = countdown s /\
               lShapeHoldTimeRef (predictLoop rand now (Hand l) s)
                 = (lShapeHoldTimeRef s + 1)%Z).
  { rewrite (predictLoop_listening rand _ _ _ Hl), Hg. simpl.
    match goal with
    | |- context [triggerCountdown now ?s1] =>
        rewrite (triggerCountdown_rejects now s1 (or_introl Hcool))
    end.
    match goal with
    | |- context [if ?b then _ else _] => destruct b
    end; simpl; auto. }
  destruct Hp as (Hc & Hn & Hh).
  unfold frame, commit.
  destruct (decide (countdown (predictLoop rand now (Hand l) s) = countdown s /\
                    captureState (predictLoop rand now (Hand l) s)
                      = captureState s)) as [_ | Hne].
  - auto.
  - exfalso. apply Hne. split; [exact Hn | congruence].
Qed.

(** ** [takePhoto] *)

Lemma takePhoto_missing (now : Z) (s : App) :
  mainGroupRef s = None \/ cameraRef s = None \/ videoRef s = None ->
  takePhoto rand now s = s.
Proof.
  unfold takePhoto. intros [H | [H | H]]; rewrite H.
  - reflexivity.
  - destruct (mainGroupRef s); reflexivity.
  - destruct (mainGroupRef s), (cameraRef s); reflexivity.
Qed.

Lemma takePhoto_present (now : Z) (s : App)
      (g : Group) (c : Camera) (vid : Video) :
  mainGroupRef s = Some g -> cameraRef s = Some c -> videoRef s = Some vid ->
  let s' := takePhoto rand now s in
  captureState s' = FLASH /\
  countdown s' = None /\
  flash s' = true /\
  particlesRef s' = particlesRef s ++ [newPhoto rand s g vid] /\
  previewingPhotoRef s' = Some (length (particlesRef s)) /\
  timers s' =
    insertTimer (now + 4500) (FlySequence (length (particlesRef s)))
      (insertTimer (now + 150) EndFlash (timers s)) /\
  snapshotImage s' =
    (if canvas2d s && (2 <=? readyState vid)%Z
     then Some (centreCrop vid) else snapshotImage s) /\
  lastCaptureTimeRef s' = lastCaptureTimeRef s.
Proof.
  intros Hg Hc Hv. unfold takePhoto. rewrite Hg, Hc, Hv. cbv zeta.
  destruct (canvas2d s && (2 <=? readyState vid)%Z); repeat split.
Qed.

(** C6, as amended. When the scene group, the camera or the video element
    is missing, [takePhoto] does nothing: the whole state, and with it the
    particle collection, is unchanged.  When the three exist, one photo
    particle is appended whether or not the video has a frame ready; the
    frame is drawn on the card, and the snapshot set, only when it is
    ready. *)
Theorem takePhoto_resources (now : Z) (s : App) :
  (mainGroupRef s = None \/ cameraRef s = None \/ videoRef s = None ->
   takePhoto rand now s = s /\
   particlesRef (takePhoto rand now s) = particlesRef s) /\
  (forall g c vid,
     mainGroupRef s = Some g -> cameraRef s = Some c ->
     videoRef s = Some vid ->
     exists newP,
       particlesRef (takePhoto rand now s) = particlesRef s ++ [newP] /\
       isPhoto newP = true /\
       type newP = PHOTO /\
       model (mesh newP) =
         Polaroid (canvas2d s && (2 <=? readyState vid)%Z) /\
       ((readyState vid < 2)%Z ->
        model (mesh newP) = Polaroid false /\
        snapshotImage (takePhoto rand now s) = snapshotImage s)).
Proof.
  split.
  - intros H. rewrite (takePhoto_missing now s H). split; reflexivity.
  - intros g c vid Hg Hc Hv.
    destruct (takePhoto_present now s g c vid Hg Hc Hv)
      as (_ & _ & _ & Hp & _ & _ & Hs & _).
    exists (newPhoto rand s g vid). repeat split; try assumption.
    + simpl. assert (E : (2 <=? readyState vid)%Z = false)
        by (apply Z.leb_gt; assumption).
      rewrite E, andb_false_r. reflexivity.
    + rewrite Hs. assert (E : (2 <=? readyState vid)%Z = false)
        by (apply Z.leb_gt; assumption).
      rewrite E, andb_false_r. reflexivity.
Qed.

End CaptureProperties.

Lemma trigger_rejected_during_cooldown_witness :
  (3000 - lastCaptureTimeRef sampleApp < 4000)%Z /\
  captureState sampleApp = IDLE /\
  captureState (click zeroRand 3000 sampleApp) = IDLE.
Proof.
  assert (H : (3000 - lastCaptureTimeRef sampleApp < 4000)%Z) by (simpl; lia).
  split; [exact H | split; [reflexivity |]].
  apply (trigger_rejected_during_cooldown zeroRand 3000 sampleApp (or_introl H)).
  reflexivity.
Defined.

Lemma takePhoto_resources_witness :
  mainGroupRef noSceneApp = None /\
  particlesRef (takePhoto zeroRand 5000 noSceneApp) = particlesRef noSceneApp /\
  (readyState blankVideo < 2)%Z /\
  exists newP,
    particlesRef (takePhoto zeroRand 5000 blankVideoApp) = [samplePhoto; newP] /\
    isPhoto newP = true.
Proof.
  split; [reflexivity |].
  split.
  { apply (proj1 (takePhoto_resources zeroRand 5000 noSceneApp)).
    left. reflexivity. }
  split; [simpl; lia |].
  destruct (proj2 (takePhoto_resources zeroRand 5000 blankVideoApp)
              sampleGroup PerspectiveCamera blankVideo
              eq_refl eq_refl eq_refl) as (newP & Hp & Hi & _).
  exists newP. split; assumption.
Defined.

(** C6, as stated, fails: on [blankVideoApp] the video element has no frame
    ready, and [takePhoto] still appends a photo particle. *)
Lemma takePhoto_without_frame_adds_particle :
  resourceMissing blankVideoApp /\
  length (particlesRef blankVideoApp) = 1%nat /\
  length (particlesRef (takePhoto zeroRand 5000 blankVideoApp)) = 2%nat /\
  particlesRef (takePhoto zeroRand 5000 blankVideoApp)
    <> particlesRef blankVideoApp.
Proof.
  split; [right; simpl; lia |].
  split; [reflexivity |].
  split; [reflexivity |].
  intros H. apply (f_equal (@length Particle)) in H. simpl in H. discriminate.
Qed.

(** ** The zoomed-photo lock *)

Section ZoomLock.

Variable rand : nat -> R.

Lemma takePhoto_zoom (now : Z) (s : App) :
  zoomedPhotoRef (takePhoto rand now s) = zoomedPhotoRef s.
Proof.
  unfold takePhoto.
  destruct (mainGroupRef s), (cameraRef s), (videoRef s) as [vid |];
    try reflexivity.
  destruct (canvas2d s && (2 <=? readyState vid)%Z); reflexivity.
Qed.

Lemma countdownEffect_zoom (now : Z) (s : App) :
  zoomedPhotoRef (countdownEffect rand now s) = zoomedPhotoRef s.
Proof.
  unfold countdownEffect.
  destruct (captureState s); try reflexivity.
  destruct (countdown s) as [c |]; [| reflexivity].
  destruct (0 <? c)%Z; [reflexivity | apply takePhoto_zoom].
Qed.

Lemma commit_zoom (now : Z) (before after : App) :
  zoomedPhotoRef (commit rand now before after) = zoomedPhotoRef after.
Proof.
  unfold commit.
  destruct (decide (countdown after = countdown before /\
                    captureState after = captureState before));
    [reflexivity |].
  rewrite countdownEffect_zoom. reflexivity.
Qed.

Lemma fire_zoom (now : Z) (a : TimerAction) (s : App) :
  zoomedPhotoRef (fire now a s) = zoomedPhotoRef s.
Proof. destruct a; reflexivity. Qed.

Lemma advance_zoom (fuel : nat) (t : Z) (s : App) :
  zoomedPhotoRef (advance rand fuel t s) = zoomedPhotoRef s.
Proof.
  revert s. induction fuel as [| fuel IH]; intros s; [reflexivity |].
  simpl. destruct (timers s) as [| [due a] rest]; [reflexivity |].
  destruct (due <=? t)%Z; [| reflexivity].
  rewrite IH, commit_zoom, fire_zoom. reflexivity.
Qed.

Lemma onGesture_zoom (now : Z) (g : GestureType) (s : App) (p : nat) :
  isModeGesture g = false ->
  zoomedPhotoRef s = Some p ->
  zoomedPhotoRef (onGesture rand now g s) = Some p.
Proof.
  intros Hg Hz. destruct g; simpl in Hg; try discriminate; simpl.
  - (* NONE *) exact Hz.
  - (* PINCH *)
    rewrite Hz. rewrite andb_false_r. exact Hz.
  - (* L_SHAPE *)
    match goal with
    | |- context [if ?b then triggerCountdown now ?s1 else _] =>
        destruct b;
        [ destruct (triggerCountdown_frame now s1) as (_ & _ & Ht & _);
          cbv zeta in Ht; rewrite Ht | ]; exact Hz
    end.
Qed.

Lemma predictLoop_zoom (now : Z) (det : Detection) (s : App) (p : nat) :
  (forall g, detected det = Some g -> isModeGesture g = false) ->
  zoomedPhotoRef s = Some p ->
  zoomedPhotoRef (predictLoop rand now det s) = Some p.
Proof.
  intros Hg Hz. unfold predictLoop.
  destruct (isMountedRef s); simpl; [| exact Hz].
  destruct (videoRef s) as [vid |]; [| exact Hz].
  destruct ((2 <=? readyState vid)%Z && landmarkerRef s); [| exact Hz].
  destruct (bool_decide (captureState s <> IDLE)
            || (now - lastCaptureTimeRef s <? 2000)%Z); [exact Hz |].
  destruct det as [| | l]; try exact Hz.
  apply onGesture_zoom; [apply Hg; reflexivity | exact Hz].
Qed.

(** C9. A zoomed-photo lock that is set is cleared only by the three mode
    gestures.  A run of the prediction loop that does not see OPEN_PALM,
    FIST or THUMBS_UP (a PINCH, L_SHAPE or NONE frame, a frame without a
    hand, a failed or skipped detection) keeps it, and so do the trigger,
    the countdown effect, [takePhoto] and every timer callback of the
    capture sequence; a frame that sees a mode gesture clears it. *)
Theorem zoom_lock_cleared_only_by_mode_gestures
        (now : Z) (s : App) (p : nat) :
  zoomedPhotoRef s = Some p ->
  (forall det,
     (forall g, detected det = Some g -> isModeGesture g = false) ->
     zoomedPhotoRef (predictLoop rand now det s) = Some p /\
     zoomedPhotoRef (frame rand now det s) = Some p) /\
  zoomedPhotoRef (triggerCountdown now s) = Some p /\
  zoomedPhotoRef (click rand now s) = Some p /\
  zoomedPhotoRef (countdownEffect rand now s) = Some p /\
  zoomedPhotoRef (takePhoto rand now s) = Some p /\
  (forall a, zoomedPhotoRef (fire now a s) = Some p) /\
  (forall fuel t, zoomedPhotoRef (advance rand fuel t s) = Some p) /\
  (forall l, listening now s -> isModeGesture (classify l) = true ->
             zoomedPhotoRef (predictLoop rand now (Hand l) s) = None).
Proof.
  intros Hz.
  assert (Ht : zoomedPhotoRef (triggerCountdown now s) = Some p).
  { destruct (triggerCountdown_frame now s) as (_ & _ & Ht & _).
    cbv zeta in Ht. rewrite Ht. exact Hz. }
  repeat split.
  - apply predictLoop_zoom; assumption.
  - unfold frame. rewrite commit_zoom. apply predictLoop_zoom; assumption.
  - exact Ht.
  - unfold click. rewrite commit_zoom. exact Ht.
  - rewrite countdownEffect_zoom. exact Hz.
  - rewrite takePhoto_zoom. exact Hz.
  - intros a. rewrite fire_zoom. exact Hz.
  - intros fuel t. rewrite advance_zoom. exact Hz.
  - intros l Hl Hg.
    rewrite (predictLoop_listening rand _ _ _ Hl).
    destruct (classify l); simpl in Hg; try discriminate; reflexivity.
Qed.

End ZoomLock.

Lemma zoom_lock_cleared_only_by_mode_gestures_witness :
  zoomedPhotoRef sampleApp = Some 0%nat /\
  zoomedPhotoRef (predictLoop zeroRand 10000 (Hand pinchPalmHand) sampleApp)
    = Some 0%nat /\
  zoomedPhotoRef (predictLoop zeroRand 10000 (Hand lShapeHand) sampleApp)
    = Some 0%nat /\
  zoomedPhotoRef (predictLoop zeroRand 10000 (Hand otherHand) sampleApp)
    = Some 0%nat /\
  zoomedPhotoRef (predictLoop zeroRand 10000 NoHand sampleApp) = Some 0%nat /\
  zoomedPhotoRef (takePhoto zeroRand 10000 sampleApp) = Some 0%nat /\
  zoomedPhotoRef (predictLoop zeroRand 10000 (Hand openPalmHand) sampleApp)
    = None.
Proof.
  pose proof (zoom_lock_cleared_only_by_mode_gestures zeroRand 10000
                sampleApp 0%nat eq_refl)
    as (Hkeep & _ & _ & _ & Hphoto & _ & _ & Hclear).
  split; [reflexivity |].
  split.
  { apply Hkeep. simpl. intros g Hg. injection Hg as <-.
    rewrite classify_pinchPalmHand. reflexivity. }
  split.
  { apply Hkeep. simpl. intros g Hg. injection Hg as <-.
    rewrite classify_lShapeHand. reflexivity. }
  split.
  { apply Hkeep. simpl. intros g Hg. injection Hg as <-.
    rewrite classify_otherHand. reflexivity. }
  split.
  { apply Hkeep. simpl. intros g Hg. discriminate Hg. }
  split; [exact Hphoto |].
  apply Hclear; [exact sampleApp_listening |].
  rewrite classify_openPalmHand. reflexivity.
Defined.

(** ** The capture timeline *)

Section Timeline.

Variable rand : nat -> R.

Lemma advance_settled (fuel : nat) (t : Z) (s : App) :
  timers s = [] -> advance rand fuel t s = s.
Proof. intros H. destruct fuel; simpl; [| rewrite H]; reflexivity. Qed.

Lemma advance_waiting (fuel : nat) (t : Z) (s : App)
      (due : Z) (a : TimerAction) (rest : list (Z * TimerAction)) :
  timers s = (due, a) :: rest -> (t < due)%Z -> advance rand fuel t s = s.
Proof.
  intros H Hlt. destruct fuel; simpl; [reflexivity |]. rewrite H.
  zcmp. reflexivity.
Qed.

Lemma advance_fires (fuel : nat) (t : Z) (s : App)
      (due : Z) (a : TimerAction) (rest : list (Z * TimerAction)) :
  timers s = (due, a) :: rest -> (due <= t)%Z ->
  advance rand (S fuel) t s =
  advance rand fuel t
    (commit rand due (with_timers rest s) (fire due a (with_timers rest s))).
Proof. intros H Hle. simpl. rewrite H. zcmp. reflexivity. Qed.

Lemma captureLog_fires (fuel : nat) (t : Z) (s : App)
      (due : Z) (a : TimerAction) (rest : list (Z * TimerAction)) :
  timers s = (due, a) :: rest -> (due <= t)%Z ->
  captureLog rand (S fuel) t s =
  let s'' :=
    commit rand due (with_timers rest s) (fire due a (with_timers rest s)) in
  (due, captureState s'') :: captureLog rand fuel t s''.
Proof. intros H Hle. simpl. rewrite H. zcmp. reflexivity. Qed.

Lemma captureLog_settled (fuel : nat) (t : Z) (s : App) :
  timers s = [] -> captureLog rand fuel t s = [].
Proof. intros H. destruct fuel; simpl; [| rewrite H]; reflexivity. Qed.

(** A render that does not find the capture in COUNTDOWN changes nothing
    but the cleared countdown timer. *)
Lemma commit_outside_countdown (now : Z) (before after : App) :
  captureState after <> COUNTDOWN ->
  (forall e, In e (timers after) -> isCountdownTick e = false) ->
  commit rand now before after = after.
Proof.
  intros Hc Hq. unfold commit.
  destruct (decide (countdown after = countdown before /\
                    captureState after = captureState before));
    [reflexivity |].
  assert (E : clearCountdownTimer after = after).
  { unfold clearCountdownTimer.
    replace (List.filter (fun e => negb (isCountdownTick e)) (timers after))
      with (timers after); [apply with_timers_same |].
    symmetry. apply forallb_filter_id. apply forallb_forall.
    intros e He. rewrite (Hq e He). reflexivity. }
  rewrite E. unfold countdownEffect.
  destruct (captureState after); try reflexivity. contradiction.
Qed.

(** The three callbacks that follow [takePhoto], from a state
    whose queue holds exactly the two timers set by [takePhoto] at [t0]. *)
Section AfterPhoto.

Variables (t0 : Z) (idx : nat) (s0 : App).
Hypothesis Hqueue :
  timers s0 = [((t0 + 150)%Z, EndFlash); ((t0 + 4500)%Z, FlySequence idx)].

Lemma step_developing :
  commit rand (t0 + 150)
    (with_timers [((t0 + 4500)%Z, FlySequence idx)] s0)
    (fire (t0 + 150) EndFlash
       (with_timers [((t0 + 4500)%Z, FlySequence idx)] s0))
  = developing t0 idx s0.
Proof using Type.
  apply commit_outside_countdown; simpl; [discriminate |].
  intros e [<- | []]. reflexivity.
Qed.

Lemma step_flying :
  commit rand (t0 + 4500) (with_timers [] (developing t0 idx s0))
    (fire (t0 + 4500) (FlySequence idx) (with_timers [] (developing t0 idx s0)))
  = flying t0 idx s0.
Proof using Type.
  apply commit_outside_countdown; simpl; [discriminate |].
  intros e [<- | []]. reflexivity.
Qed.

Lemma step_settled :
  commit rand (t0 + 4500 + 1000) (with_timers [] (flying t0 idx s0))
    (fire (t0 + 4500 + 1000) BackToIdle (with_timers [] (flying t0 idx s0)))
  = settled t0 idx s0.
Proof using Type.
  apply commit_outside_countdown; simpl; [discriminate |].
  intros e [].
Qed.

Lemma timers_developing :
  timers (developing t0 idx s0) = [((t0 + 4500)%Z, FlySequence idx)].
Proof using Type. reflexivity. Qed.

Lemma timers_flying :
  timers (flying t0 idx s0) = [((t0 + 4500 + 1000)%Z, BackToIdle)].
Proof using Type. reflexivity. Qed.

Lemma advance_after_photo (fuel : nat) (t : Z) :
  (3 <= fuel)%nat ->
  advance rand fuel t s0 =
  if (t <? t0 + 150)%Z then s0
  else if (t <? t0 + 4500)%Z then (developing t0 idx s0)
  else if (t <? t0 + 5500)%Z then (flying t0 idx s0)
  else (settled t0 idx s0).
Proof using Hqueue.
  intros Hfuel.
  destruct (Z.ltb_spec t (t0 + 150)) as [H1 | H1].
  { apply (advance_waiting _ _ _ _ _ _ Hqueue). exact H1. }
  destruct fuel as [| fuel]; [lia |].
  rewrite (advance_fires _ _ _ _ _ _ Hqueue H1), step_developing.
  destruct (Z.ltb_spec t (t0 + 4500)) as [H2 | H2].
  { apply (advance_waiting _ _ _ _ _ _ timers_developing). exact H2. }
  destruct fuel as [| fuel]; [lia |].
  rewrite (advance_fires _ _ _ _ _ _ timers_developing H2), step_flying.
  destruct (Z.ltb_spec t (t0 + 5500)) as [H3 | H3].
  { apply (advance_waiting _ _ _ _ _ _ timers_flying). lia. }
  destruct fuel as [| fuel]; [lia |].
  rewrite (advance_fires _ _ _ _ _ _ timers_flying) by lia.
  rewrite step_settled. apply advance_settled. reflexivity.
Qed.

Lemma captureLog_after_photo (fuel : nat) (t : Z) :
  (3 <= fuel)%nat -> (t0 + 5500 <= t)%Z ->
  captureLog rand fuel t s0 =
  [((t0 + 150)%Z, DEVELOPING); ((t0 + 4500)%Z, FLYING);
   ((t0 + 4500 + 1000)%Z, IDLE)].
Proof using Hqueue.
  intros Hfuel Ht.
  destruct fuel as [| [| [| fuel]]]; try lia.
  rewrite (captureLog_fires _ _ _ _ _ _ Hqueue) by lia. cbv zeta.
  rewrite step_developing.
  rewrite (captureLog_fires _ _ _ _ _ _ timers_developing) by lia.
  cbv zeta. rewrite step_flying.
  rewrite (captureLog_fires _ _ _ _ _ _ timers_flying) by lia.
  cbv zeta. rewrite step_settled.
  rewrite captureLog_settled by reflexivity. reflexivity.
Qed.

End AfterPhoto.

End Timeline.

Section CaptureTimeline.

Variable rand : nat -> R.

(** C7. A capture whose photo is taken at [t0] is in FLASH from [t0],
    in DEVELOPING from [t0 + 150], in FLYING from [t0 + 4500] and back in
    IDLE from [t0 + 5500]; the three callbacks enter DEVELOPING, FLYING
    and IDLE once each, in that order and at those times. *)
Theorem capture_timeline
        (t0 : Z) (s : App) (g : Group) (c : Camera) (vid : Video) :
  mainGroupRef s = Some g -> cameraRef s = Some c ->
  videoRef s = Some vid -> timers s = [] ->
  let s0 := takePhoto rand t0 s in
  captureState s0 = FLASH /\
  forall fuel t, (3 <= fuel)%nat ->
    ((t0 <= t < t0 + 150)%Z ->
     captureState (advance rand fuel t s0) = FLASH) /\
    ((t0 + 150 <= t < t0 + 4500)%Z ->
     captureState (advance rand fuel t s0) = DEVELOPING) /\
    ((t0 + 4500 <= t < t0 + 5500)%Z ->
     captureState (advance rand fuel t s0) = FLYING) /\
    ((t0 + 5500 <= t)%Z ->
     captureState (advance rand fuel t s0) = IDLE /\
     captureLog rand fuel t s0 =
     [((t0 + 150)%Z, DEVELOPING); ((t0 + 4500)%Z, FLYING);
      ((t0 + 5500)%Z, IDLE)]).
Proof.
  intros Hg Hc Hv Hq. cbv zeta.
  destruct (takePhoto_present rand t0 s g c vid Hg Hc Hv)
    as (Hflash & _ & _ & _ & _ & Hqueue & _).
  rewrite Hq in Hqueue. simpl in Hqueue.
  replace (t0 + 150 <=? t0 + 4500)%Z with true in Hqueue
    by (symmetry; apply Z.leb_le; lia).
  split; [exact Hflash |].
  intros fuel t Hfuel.
  rewrite (advance_after_photo rand t0 _ _ Hqueue fuel t Hfuel).
  repeat split.
  - intros H. zcmp. exact Hflash.
  - intros H. zcmp. reflexivity.
  - intros H. zcmp. reflexivity.
  - zcmp. reflexivity.
  - rewrite (captureLog_after_photo rand t0 _ _ Hqueue fuel t Hfuel H).
    replace (t0 + 4500 + 1000)%Z with (t0 + 5500)%Z by lia. reflexivity.
Qed.

End CaptureTimeline.

Lemma capture_timeline_witness :
  captureState (takePhoto zeroRand 5000 blankVideoApp) = FLASH /\
  captureState (advance zeroRand 3 5100 (takePhoto zeroRand 5000 blankVideoApp))
    = FLASH /\
  captureState (advance zeroRand 3 5150 (takePhoto zeroRand 5000 blankVideoApp))
    = DEVELOPING /\
  captureState (advance zeroRand 3 9500 (takePhoto zeroRand 5000 blankVideoApp))
    = FLYING /\
  captureState (advance zeroRand 3 10500 (takePhoto zeroRand 5000 blankVideoApp))
    = IDLE.
Proof.
  pose proof (capture_timeline zeroRand 5000 blankVideoApp sampleGroup
                PerspectiveCamera blankVideo eq_refl eq_refl eq_refl eq_refl)
    as [Hflash Hrun].
  cbv zeta in Hrun.
  split; [exact Hflash |].
  split; [apply (Hrun 3%nat 5100%Z); lia |].
  split; [apply (Hrun 3%nat 5150%Z); lia |].
  split; [apply (Hrun 3%nat 9500%Z); lia |].
  apply (Hrun 3%nat 10500%Z); lia.
Defined.

(** ** A second trigger while a capture is under way *)

Lemma insertTimer_Forall (P : Z * TimerAction -> Prop)
      (due : Z) (a : TimerAction) (q : list (Z * TimerAction)) :
  P (due, a) -> Forall P q -> Forall P (insertTimer due a q).
Proof.
  intros Hp Hq. induction Hq as [| [d b] q Hb Hq IH]; simpl.
  - constructor; [exact Hp | constructor].
  - destruct (d <=? due)%Z; constructor; auto.
Qed.

Lemma filter_Forall (P : Z * TimerAction -> Prop)
      (f : Z * TimerAction -> bool) (q : list (Z * TimerAction)) :
  Forall P q -> Forall P (List.filter f q).
Proof.
  intros Hq. induction Hq as [| e q He Hq IH]; simpl; [constructor |].
  destruct (f e); [constructor |]; assumption.
Qed.

Section Retrigger.

Variable rand : nat -> R.
Variable T : Z.

Lemma takePhoto_capturing (now : Z) (s : App) :
  (T <= now)%Z -> capturing T s -> capturing T (takePhoto rand now s).
Proof.
  intros Hnow [Hc Hq]. unfold takePhoto.
  destruct (mainGroupRef s) as [g |]; [| split; assumption].
  destruct (cameraRef s) as [c |]; [| split; assumption].
  destruct (videoRef s) as [vid |]; [| split; assumption].
  cbv zeta.
  destruct (canvas2d s && (2 <=? readyState vid)%Z);
    (split; [simpl; discriminate |]); simpl;
    (apply insertTimer_Forall; [split; simpl; lia |]);
    (apply insertTimer_Forall; [split; simpl; [lia | trivial] |]);
    exact Hq.
Qed.

Lemma countdownEffect_capturing (now : Z) (s : App) :
  (T <= now)%Z -> capturing T s -> capturing T (countdownEffect rand now s).
Proof.
  intros Hnow Hs. unfold countdownEffect.
  destruct (captureState s) eqn:Hc; try exact Hs.
  destruct (countdown s) as [c |]; [| exact Hs].
  destruct (0 <? c)%Z; [| apply takePhoto_capturing; assumption].
  destruct Hs as [Hne Hq]. split; [simpl; exact Hne |]. simpl.
  apply insertTimer_Forall; [split; simpl; [lia | trivial] | exact Hq].
Qed.

Lemma commit_capturing (now : Z) (before after : App) :
  (T <= now)%Z -> capturing T after ->
  capturing T (commit rand now before after).
Proof.
  intros Hnow Ha. unfold commit.
  destruct (decide (countdown after = countdown before /\
                    captureState after = captureState before));
    [exact Ha |].
  apply countdownEffect_capturing; [exact Hnow |].
  destruct Ha as [Hc Hq]. split; [exact Hc |]. simpl.
  apply filter_Forall. exact Hq.
Qed.

(** Until 4000 ms after the trigger the capture stays under way. *)
Lemma advance_capturing (fuel : nat) (t : Z) (s : App) :
  (t < T + 4000)%Z -> capturing T s ->
  capturing T (advance rand fuel t s).
Proof.
  intros Ht. revert s. induction fuel as [| fuel IH]; intros s Hs;
    [exact Hs |].
  simpl. destruct (timers s) as [| [due a] rest] eqn:Hq; [exact Hs |].
  destruct (Z.leb_spec due t) as [Hdue | Hdue]; [| exact Hs].
  destruct Hs as [Hc Hall]. rewrite Hq in Hall.
  apply Forall_cons in Hall. destruct Hall as [[Hlo Ha] Hrest].
  simpl in Hlo, Ha.
  apply IH. apply commit_capturing; [exact Hlo |].
  destruct a; simpl.
  - split; [exact Hc | exact Hrest].
  - split; [discriminate | exact Hrest].
  - lia.
  - contradiction.
Qed.

(** After a trigger accepted at time [T], the capture state is COUNTDOWN,
    and at any time less than 4000 ms later it is still not IDLE, so that
    a second trigger leaves the state as it is. *)
Lemma retrigger_rejected (fuel : nat) (t : Z) (s : App) :
  captureState s = IDLE ->
  (4000 <= T - lastCaptureTimeRef s)%Z ->
  timers s = [] ->
  (T <= t < T + 4000)%Z ->
  captureState (click rand T s) = COUNTDOWN /\
  captureState (advance rand fuel t (click rand T s)) <> IDLE /\
  click rand t (advance rand fuel t (click rand T s))
    = advance rand fuel t (click rand T s).
Proof.
  intros Hidle Hcool Hq Ht.
  assert (Hclick : click rand T s =
            s |> with_captureState COUNTDOWN |> with_countdown (Some 3%Z)
              |> with_camMessage "SMILE!"%string
              |> with_timers [((T + 1000)%Z, CountdownTick)]).
  { unfold click. rewrite (triggerCountdown_accepts T s Hidle Hcool).
    unfold commit. simpl. rewrite Hidle.
    destruct (decide (Some 3%Z = countdown s /\ COUNTDOWN = IDLE))
      as [[_ H] | _]; [discriminate H |].
    unfold clearCountdownTimer, countdownEffect. simpl. rewrite Hq.
    reflexivity. }
  assert (Hbusy : capturing T (click rand T s)).
  { rewrite Hclick. split; [simpl; discriminate |]. simpl.
    constructor; [split; simpl; [lia | trivial] | constructor]. }
  split; [rewrite Hclick; reflexivity |].
  destruct (advance_capturing fuel t _ ltac:(lia) Hbusy) as [Hne _].
  split; [exact Hne |].
  generalize dependent (advance rand fuel t (click rand T s)).
  intros s1 Hne. unfold click.
  rewrite (triggerCountdown_rejects t s1 (or_intror Hne)).
  apply commit_same.
Qed.

End Retrigger.

(** ** Tree-formation targets *)

Lemma pow_unit (u e : R) : unitDraw u -> 0 < e -> 0 <= JS.pow u e < 1.
Proof.
  intros [H0 H1] He. unfold JS.pow.
  destruct (Req_dec_T u 0) as [| Hne]; [lra |].
  assert (Hu : 0 < u) by lra.
  unfold Rpower. split; [left; apply exp_pos |].
  rewrite <- exp_0. apply exp_increasing.
  assert (Hln : ln u < 0) by (rewrite <- ln_1; apply ln_increasing; lra).
  nra.
Qed.

Lemma sqrt_unit (f : R) : unitDraw f -> 0 <= sqrt f <= 1.
Proof.
  intros [H0 H1]. split; [apply sqrt_pos |].
  rewrite <- sqrt_1. apply sqrt_le_1_alt. lra.
Qed.

Lemma Rabs_le_1_mult (c m k : R) :
  Rabs c <= 1 -> 0 <= m -> 0 <= k <= 1 -> Rabs (c * m * k) <= m.
Proof.
  intros Hc Hm Hk. rewrite !Rabs_mult.
  rewrite (Rabs_pos_eq m) by assumption.
  rewrite (Rabs_pos_eq k) by lra.
  pose proof (Rabs_pos c) as Hp.
  assert (H1 : Rabs c * m <= m) by nra.
  assert (H2 : 0 <= Rabs c * m) by nra.
  nra.
Qed.

Lemma Rabs_cos_le_1 (a : R) : Rabs (cos a) <= 1.
Proof. apply Rabs_le. pose proof (COS_bound a). lra. Qed.

Lemma Rabs_sin_le_1 (a : R) : Rabs (sin a) <= 1.
Proof. apply Rabs_le. pose proof (SIN_bound a). lra. Qed.

Lemma hypot_le_sqrt2 (x z m : R) :
  Rabs x <= m -> Rabs z <= m -> sqrt (x * x + z * z) <= sqrt 2 * m.
Proof.
  intros Hx Hz.
  assert (Hm : 0 <= m) by (pose proof (Rabs_pos x); lra).
  assert (Hxx : x * x <= m * m).
  { rewrite <- (Rabs_pos_eq m Hm) in Hx.
    apply Rsqr_le_abs_1 in Hx. exact Hx. }
  assert (Hzz : z * z <= m * m).
  { rewrite <- (Rabs_pos_eq m Hm) in Hz.
    apply Rsqr_le_abs_1 in Hz. exact Hz. }
  replace (sqrt 2 * m) with (sqrt (2 * (m * m))).
  - apply sqrt_le_1_alt. lra.
  - rewrite sqrt_mult_alt by lra. rewrite (sqrt_square m Hm). reflexivity.
Qed.

(** The bounds shared by the three construction loops. *)
Lemma treeTarget_bounds (e lo hi u a1 f1 a2 f2 : R) :
  0 < e -> 0 <= lo -> 0 <= hi -> lo + hi <= 1 ->
  unitDraw u -> unitDraw f1 -> unitDraw f2 ->
  let p := treeTarget e lo hi u a1 f1 a2 f2 in
  withinPyramid p /\
  horizontalDistance p <= sqrt 2 * coneRadius (vy p).
Proof.
  intros He Hlo Hhi Hsum Hu Hf1 Hf2. cbv zeta.
  pose proof (pow_unit u e Hu He) as Hh.
  pose proof (sqrt_unit f1 Hf1) as Hs1.
  pose proof (sqrt_unit f2 Hf2) as Hs2.
  unfold treeTarget, withinPyramid, horizontalDistance, coneRadius,
    TREE_HEIGHT, TREE_BASE_RADIUS. cbv zeta. simpl.
  set (hN := JS.pow u e) in *.
  replace (22 * (1.0 - (hN * 55 - 55 / 2 + 55 / 2) / 55)) with (22 * (1 - hN))
    by (field_simplify; lra).
  replace (22 * (1 - (hN * 55 - 55 / 2 + 55 / 2) / 55)) with (22 * (1 - hN))
    by (field_simplify; lra).
  assert (Hx : Rabs (cos (a1 * 6.28) * (22 * (1 - hN)) * (lo + hi * sqrt f1))
               <= 22 * (1 - hN)).
  { apply Rabs_le_1_mult; [apply Rabs_cos_le_1 | lra | nra]. }
  assert (Hz : Rabs (sin (a2 * 6.28) * (22 * (1 - hN)) * (lo + hi * sqrt f2))
               <= 22 * (1 - hN)).
  { apply Rabs_le_1_mult; [apply Rabs_sin_le_1 | lra | nra]. }
  split; [split; [lra | split; assumption] |].
  apply hypot_le_sqrt2; assumption.
Qed.

Lemma photoTreeTarget_radius (u1 u2 u3 : R) :
  unitDraw u1 -> unitDraw u2 ->
  let p := photoTreeTarget u1 u2 u3 in
  horizontalDistance p = coneRadius (vy p) * (0.4 + u2 * 0.7) + 1.
Proof.
  intros H1 H2. cbv zeta.
  unfold photoTreeTarget, horizontalDistance, coneRadius,
    TREE_HEIGHT, TREE_BASE_RADIUS. cbv zeta. simpl.
  set (m := (1 - ((u1 * 0.9 - 0.45) * 55 + 55 / 2) / 55) * 22).
  replace (22 * (1 - ((u1 * 0.9 - 0.45) * 55 + 55 / 2) / 55)) with m
    by (unfold m; ring).
  assert (Hm : 0 <= m).
  { unfold m. replace ((1 - ((u1 * 0.9 - 0.45) * 55 + 55 / 2) / 55) * 22)
      with ((0.95 - u1 * 0.9) * 22) by (field_simplify; lra).
    destruct H1. nra. }
  set (r := m * (0.4 + u2 * 0.7) + 1.0).
  assert (Hr : 0 <= r) by (unfold r; destruct H2; nra).
  replace (cos (u3 * 6.28) * r * (cos (u3 * 6.28) * r)
           + sin (u3 * 6.28) * r * (sin (u3 * 6.28) * r))
    with (r * r).
  - rewrite (sqrt_square r Hr). unfold r. lra.
  - pose proof (sin2_cos2 (u3 * 6.28)) as Hsc. unfold Rsqr in Hsc. nra.
Qed.

(** The height of a target of the three construction loops is within the
    cone's. *)
Lemma treeTarget_height (e lo hi u a1 f1 a2 f2 : R) :
  0 < e -> unitDraw u ->
  let p := treeTarget e lo hi u a1 f1 a2 f2 in
  - (TREE_HEIGHT / 2) <= vy p < TREE_HEIGHT / 2 /\
  0 < coneRadius (vy p) <= TREE_BASE_RADIUS.
Proof.
  intros He Hu. cbv zeta.
  pose proof (pow_unit u e Hu He) as Hh.
  unfold treeTarget, coneRadius, TREE_HEIGHT, TREE_BASE_RADIUS.
  cbv zeta. simpl.
  set (hN := JS.pow u e) in *.
  replace (22 * (1 - (hN * 55 - 55 / 2 + 55 / 2) / 55)) with (22 * (1 - hN))
    by (field_simplify; lra).
  lra.
Qed.

(** C8, as amended. The tree target of a captured photo has its height
    within 0.45 times the cone's height of the middle and lies at distance
    [coneRadius y * (0.4 + 0.7 u) + 1] from the axis, between 0.4 and 1.1
    times the cone's radius at that height plus one, in the direction of
    one azimuth angle: it is not confined to the cone.  A tree target built
    at scene construction for a light, a small star or an ornament has its
    height within the cone's, where the cone's radius is positive and at
    most the base radius; nothing is stated about its distance from the
    axis. *)
Theorem tree_target_by_design :
  (forall u1 u2 u3,
     unitDraw u1 -> unitDraw u2 -> unitDraw u3 ->
     let p := photoTreeTarget u1 u2 u3 in
     - (0.45 * TREE_HEIGHT) <= vy p < 0.45 * TREE_HEIGHT /\
     horizontalDistance p = coneRadius (vy p) * (0.4 + u2 * 0.7) + 1 /\
     coneRadius (vy p) * 0.4 + 1 <= horizontalDistance p
       < coneRadius (vy p) * 1.1 + 1 /\
     vx p = cos (u3 * 6.28) * horizontalDistance p /\
     vz p = sin (u3 * 6.28) * horizontalDistance p) /\
  (forall target,
     In target [lightTreeTarget; smallStarTreeTarget; ornamentTreeTarget] ->
     forall u a1 f1 a2 f2,
       unitDraw u ->
       let p := target u a1 f1 a2 f2 in
       - (TREE_HEIGHT / 2) <= vy p < TREE_HEIGHT / 2 /\
       0 < coneRadius (vy p) <= TREE_BASE_RADIUS).
Proof.
  split.
  - intros u1 u2 u3 H1 H2 H3. cbv zeta.
    pose proof (photoTreeTarget_radius u1 u2 u3 H1 H2) as Hr.
    cbv zeta in Hr. rewrite Hr.
    assert (Hc : 0 < coneRadius (vy (photoTreeTarget u1 u2 u3))).
    { unfold photoTreeTarget, coneRadius, TREE_HEIGHT, TREE_BASE_RADIUS.
      cbv zeta. simpl. destruct H1. lra. }
    split; [| split; [reflexivity | split; [destruct H2; nra |]]].
    + unfold photoTreeTarget, TREE_HEIGHT. cbv zeta. simpl.
      destruct H1. lra.
    + unfold photoTreeTarget, coneRadius, TREE_HEIGHT, TREE_BASE_RADIUS.
      cbv zeta. simpl. split; lra.
  - intros target Hin u a1 f1 a2 f2 Hu.
    destruct Hin as [<- | [<- | [<- | []]]];
      apply treeTarget_height; try assumption; lra.
Qed.

Lemma tree_target_by_design_witness :
  horizontalDistance (photoTreeTarget 0 0.9 0)
    = coneRadius (vy (photoTreeTarget 0 0.9 0)) * (0.4 + 0.9 * 0.7) + 1 /\
  - (TREE_HEIGHT / 2) <= vy (ornamentTreeTarget 0 0 0.81 0.25 0.81)
    < TREE_HEIGHT / 2.
Proof.
  assert (H0 : unitDraw 0) by (unfold unitDraw; lra).
  assert (H9 : unitDraw 0.9) by (unfold unitDraw; lra).
  split.
  - apply (proj1 tree_target_by_design 0 0.9 0 H0 H9 H0).
  - apply (proj2 tree_target_by_design ornamentTreeTarget
             ltac:(simpl; tauto) 0 0 0.81 0.25 0.81 H0).
Defined.

Lemma sin_quarter_turn : 0.43 < sin (0.25 * 6.28).
Proof.
  assert (Hpi : 3 < PI) by (pose proof PI2_3_2; lra).
  destruct (SIN (0.25 * 6.28)) as [Hlb _]; [lra | lra |].
  eapply Rlt_le_trans; [| exact Hlb].
  unfold sin_lb, sin_approx, sin_term. simpl. lra.
Qed.

(** The construction loops draw the angle and the radial fraction anew for
    each of the two horizontal coordinates, where [takePhoto] uses one
    angle and one radius for both: with the draws 0, 0, 0.81, 0.25, 0.81
    the ornament loop builds a target at the base of the tree whose
    distance from the axis exceeds the base radius. *)
Lemma ornament_target_outside_cone :
  unitDraw 0 /\ unitDraw 0.81 /\ unitDraw 0.25 /\
  ~ insideCone (ornamentTreeTarget 0 0 0.81 0.25 0.81).
Proof.
  split; [unfold unitDraw; lra |].
  split; [unfold unitDraw; lra |].
  split; [unfold unitDraw; lra |].
  intros [_ H]. revert H.
  unfold ornamentTreeTarget, treeTarget, horizontalDistance, coneRadius,
    TREE_HEIGHT, TREE_BASE_RADIUS, JS.pow. cbv zeta. simpl.
  destruct (Req_dec_T 0 0) as [_ | Hne]; [| exfalso; apply Hne; reflexivity].
  replace (0 * 6.28) with 0 by lra. rewrite cos_0.
  replace 0.81 with (0.9 * 0.9) by lra. rewrite (sqrt_square 0.9) by lra.
  pose proof sin_quarter_turn as Hs.
  set (sn := sin (0.25 * 6.28)) in *.
  intros H.
  match type of H with
  | sqrt ?S <= ?m =>
      assert (HS : 0 <= S) by nra;
      assert (Hm : S <= m * m);
      [ rewrite <- (sqrt_sqrt S HS); pose proof (sqrt_pos S); nra | ]
  end.
  nra.
Qed.

(** C8, as stated, fails: with the draws 0, 0.9, 0 [takePhoto] builds a
    tree target whose distance from the axis, 1.03 times the cone's radius
    at its height plus one, exceeds that radius. *)
Lemma photo_target_outside_cone :
  unitDraw 0 /\ unitDraw 0.9 /\ ~ insideCone (photoTreeTarget 0 0.9 0).
Proof.
  split; [unfold unitDraw; lra |].
  split; [unfold unitDraw; lra |].
  intros [_ H]. revert H.
  unfold photoTreeTarget, horizontalDistance, coneRadius,
    TREE_HEIGHT, TREE_BASE_RADIUS. cbv zeta. simpl.
  replace (0 * 6.28) with 0 by lra. rewrite cos_0, sin_0.
  set (r := (1 - ((0 * 0.9 - 0.45) * 55 + 55 / 2) / 55) * 22
            * (0.4 + 0.9 * 0.7) + 1.0).
  assert (Hr : 22 < r) by (unfold r; lra).
  replace (1 * r * (1 * r) + 0 * r * (0 * r)) with (r * r) by ring.
  rewrite (sqrt_square r) by lra. lra.
Qed.

(** The target of the topper lies above the apex of the cone. *)
Lemma topper_target_outside_cone (vavePoints : list Vector3) (g : Gen) :
  ~ insideCone (treePos (fst (topperParticle vavePoints g))).
Proof.
  unfold topperParticle, bind, ret.
  destruct (getNextTextPos vavePoints g) as [tx g']. simpl.
  unfold insideCone, TREE_HEIGHT. simpl. lra.
Qed.

(** ** Text targets at scene construction *)

Lemma pick_in_range {A : Type} `{Inhabited A} (arr : list A) (u : R) :
  unitDraw u -> arr <> [] ->
  (Z.to_nat (JS.floor (u * INR (length arr))) < length arr)%nat.
Proof.
  intros [H0 H1] Hne. unfold JS.floor.
  assert (Hlen : (0 < length arr)%nat) by (destruct arr; simpl; [congruence | lia]).
  assert (Hpos : 0 < INR (length arr)) by (apply lt_0_INR; exact Hlen).
  destruct (base_Int_part (u * INR (length arr))) as [Hle Hgt].
  assert (Hlo : (0 <= Int_part (u * INR (length arr)))%Z).
  { apply Z.lt_succ_r. apply lt_IZR. rewrite succ_IZR. nra. }
  assert (Hhi : (Int_part (u * INR (length arr)) < Z.of_nat (length arr))%Z).
  { apply lt_IZR. rewrite <- INR_IZR_INZ. nra. }
  lia.
Qed.

Lemma pick_elem {A : Type} `{Inhabited A} (arr : list A) (u : R) :
  unitDraw u -> arr <> [] -> In (pick arr u) arr.
Proof.
  intros Hu Hne. unfold pick. apply list_elem_of_In.
  apply list_elem_of_lookup_total_2. apply pick_in_range; assumption.
Qed.



Section SceneConstruction.

Variable rand : nat -> R.





(** With draws in the unit range, sampling yields images of valid
    pixels, and shuffling keeps them. *)
Hypothesis rand_unit : forall k, unitDraw (rand k).



End SceneConstruction.

Section Allocation.

Variable rand : nat -> R.
Variable vavePoints : list Vector3.






Section Loop.

Variable body : Build Particle.
Hypothesis body_allocates :
  forall g, (vaveIndex g < length vavePoints)%nat ->
            vaveIndex (snd (body g)) = S (vaveIndex g) /\
            vavePoints !! vaveIndex g = Some (textPos (fst (body g))).


End Loop.

End Allocation.

Section SceneInit.

Variable rand : nat -> R.


End SceneInit.

Lemma zeroRand_unit (k : nat) : unitDraw (zeroRand k).
Proof. unfold unitDraw, zeroRand. lra. Qed.



(** * Further properties *)

(** ** The guards of the prediction loop *)

Section LoopGuards.

Variable rand : nat -> R.

(** A run of [predictLoop] changes nothing when the component is
    unmounted, the video element is missing or has no frame, no landmarker
    exists, a capture is in progress, the last capture ended less than
    2000 ms ago, or the landmarker throws. *)
Theorem predictLoop_skips (now : Z) (det : Detection) (s : App) :
  isMountedRef s = false \/
  videoRef s = None \/
  (exists vid, videoRef s = Some vid /\ (readyState vid < 2)%Z) \/
  landmarkerRef s = false \/
  captureState s <> IDLE \/
  (now - lastCaptureTimeRef s < 2000)%Z \/
  det = DetectThrows ->
  predictLoop rand now det s = s /\ frame rand now det s = s.
Proof.
  intros H.
  assert (Hp : predictLoop rand now det s = s).
  { unfold predictLoop.
    destruct (isMountedRef s) eqn:Hm; simpl; [| reflexivity].
    destruct (videoRef s) as [vid |] eqn:Hv; [| reflexivity].
    destruct (2 <=? readyState vid)%Z eqn:Hr; simpl; [| reflexivity].
    destruct (landmarkerRef s) eqn:Hl; [| reflexivity].
    destruct (bool_decide (captureState s <> IDLE)) eqn:Hc; simpl;
      [reflexivity |].
    destruct (now - lastCaptureTimeRef s <? 2000)%Z eqn:Ht; [reflexivity |].
    destruct H as [H | [H | [(v & Hv' & Hlt) | [H | [H | [H | H]]]]]];
      try discriminate.
    - injection Hv' as <-.
      apply Z.leb_le in Hr. lia.
    - apply bool_decide_eq_false in Hc. contradiction.
    - apply Z.ltb_ge in Ht. lia.
    - rewrite H. reflexivity. }
  split; [exact Hp |]. unfold frame. rewrite Hp. apply commit_same.
Qed.

(** ** Mode gestures *)

Lemma listening_later (now now' : Z) (s s1 : App) :
  listening now s ->
  (2000 <= now' - lastCaptureTimeRef s)%Z ->
  isMountedRef s1 = isMountedRef s ->
  videoRef s1 = videoRef s ->
  landmarkerRef s1 = landmarkerRef s ->
  captureState s1 = captureState s ->
  lastCaptureTimeRef s1 = lastCaptureTimeRef s ->
  listening now' s1.
Proof.
  intros (H1 & H2 & H3 & H4 & _) Ht E1 E2 E3 E4 E5.
  unfold listening. rewrite E1, E2, E3, E4, E5. auto.
Qed.

(** What a frame that shows the gesture [g] with the wrist at [x] does to
    the state. *)
Lemma mode_step_idempotent (now now' : Z) (g : GestureType) (x : R) (s : App) :
  isModeGesture g = true ->
  let step t s0 :=
    s0 |> with_gestureRef g |> with_currentGesture g
       |> with_rotationSpeedRef x |> onGesture rand t g in
  step now' (step now s) = step now s.
Proof.
  intros Hg. destruct s.
  destruct g; try discriminate Hg; vm_compute; reflexivity.
Qed.

(** Showing the same mode gesture on a second frame changes nothing more:
    the state after two such frames is the state after the first. *)
Theorem mode_gesture_idempotent (now now' : Z) (l : Landmarks) (s : App) :
  listening now s ->
  (2000 <= now' - lastCaptureTimeRef s)%Z ->
  isModeGesture (classify l) = true ->
  predictLoop rand now' (Hand l) (predictLoop rand now (Hand l) s)
  = predictLoop rand now (Hand l) s.
Proof.
  intros Hl Ht Hg.
  rewrite (predictLoop_listening rand now (Hand l) s Hl).
  set (x := (0.5 - lm_x (wrist l)) * 0.035).
  set (g := classify l) in *.
  set (s1 := s |> with_gestureRef g |> with_currentGesture g
               |> with_rotationSpeedRef x |> onGesture rand now g).
  assert (Hl1 : listening now' s1).
  { apply (listening_later now now' s s1 Hl Ht); unfold s1;
      destruct g; try discriminate Hg; simpl; reflexivity. }
  rewrite (predictLoop_listening rand now' (Hand l) s1 Hl1).
  fold x. fold g. unfold s1.
  apply (mode_step_idempotent now now' g x s Hg).
Qed.

End LoopGuards.

Lemma predictLoop_skips_witness :
  landmarkerRef noSceneApp = false /\
  predictLoop zeroRand 10000 (Hand fistHand) noSceneApp = noSceneApp.
Proof.
  split; [reflexivity |].
  apply (predictLoop_skips zeroRand 10000 (Hand fistHand) noSceneApp).
  right. right. right. left. reflexivity.
Defined.

Lemma mode_gesture_idempotent_witness :
  predictLoop zeroRand 10040 (Hand fistHand)
    (predictLoop zeroRand 10000 (Hand fistHand) sampleApp)
  = predictLoop zeroRand 10000 (Hand fistHand) sampleApp.
Proof.
  apply (mode_gesture_idempotent zeroRand 10000 10040 fistHand sampleApp).
  - exact sampleApp_listening.
  - simpl. lia.
  - rewrite classify_fistHand. reflexivity.
Defined.

(** ** Pinch hold and the zoomed photo *)

Lemma photoIndices_spec (ps : list Particle) (k i : nat) :
  In i (photoIndices k ps) <->
  (k <= i)%nat /\ exists p, ps !! (i - k)%nat = Some p /\ isPhoto p = true.
Proof.
  revert k. induction ps as [| q ps IH]; intros k; simpl.
  - split; [intros [] | intros (_ & p & Hp & _); discriminate Hp].
  - assert (Hrec : In i (photoIndices (S k) ps) <->
                   (k < i)%nat /\
                   exists p, (q :: ps) !! (i - k)%nat = Some p /\
                             isPhoto p = true).
    { rewrite IH. split.
      - intros (Hle & p & Hp & Hi). split; [lia |]. exists p.
        replace (i - k)%nat with (S (i - S k)) by lia. auto.
      - intros (Hlt & p & Hp & Hi). split; [lia |]. exists p.
        replace (i - k)%nat with (S (i - S k)) in Hp by lia. auto. }
    destruct (isPhoto q) eqn:Hq; simpl; rewrite Hrec.
    + split.
      * intros [<- | (Hlt & p & Hp & Hi)].
        -- split; [lia |]. exists q. rewrite Nat.sub_diag. auto.
        -- split; [lia |]. exists p. auto.
      * intros (Hle & p & Hp & Hi).
        destruct (decide (i = k)) as [-> | Hne]; [left; reflexivity |].
        right. split; [lia |]. exists p. auto.
    + split.
      * intros (Hlt & p & Hp & Hi). split; [lia |]. exists p. auto.
      * intros (Hle & p & Hp & Hi).
        destruct (decide (i = k)) as [-> | Hne].
        -- rewrite Nat.sub_diag in Hp. simpl in Hp. injection Hp as <-.
           congruence.
        -- split; [lia |]. exists p. auto.
Qed.

Section PinchHold.

Variable rand : nat -> R.

(** A PINCH frame adds one to the pinch hold counter and touches neither
    the L-shape counter, the mode, the capture state nor the particles.
    With no photo zoomed, the lock is set exactly when the counter passes 15
    and a photo particle exists, and then it designates a photo particle;
    with no photo particle it stays unset however long the pinch is held. *)
Theorem pinch_frame (now : Z) (l : Landmarks) (s : App) :
  listening now s ->
  classify l = PINCH ->
  unitDraw (rand (randomCalls s)) ->
  let s' := predictLoop rand now (Hand l) s in
  pinchHoldTimeRef s' = (pinchHoldTimeRef s + 1)%Z /\
  lShapeHoldTimeRef s' = lShapeHoldTimeRef s /\
  appMode s' = appMode s /\
  captureState s' = captureState s /\
  particlesRef s' = particlesRef s /\
  (zoomedPhotoRef s = None ->
   (15 < pinchHoldTimeRef s + 1)%Z ->
   photoIndices 0 (particlesRef s) <> [] ->
   exists i p, zoomedPhotoRef s' = Some i /\
               particlesRef s !! i = Some p /\ isPhoto p = true) /\
  (zoomedPhotoRef s = None ->
   (pinchHoldTimeRef s + 1 <= 15)%Z \/ photoIndices 0 (particlesRef s) = [] ->
   zoomedPhotoRef s' = None).
Proof.
  intros Hl Hg Hu. cbv zeta.
  rewrite (predictLoop_listening rand _ _ _ Hl), Hg. simpl.
  destruct (zoomedPhotoRef s) as [z |] eqn:Hz; simpl.
  { rewrite andb_false_r. simpl. rewrite Hz.
    repeat split; intros; discriminate. }
  rewrite andb_true_r.
  destruct (15 <? pinchHoldTimeRef s + 1)%Z eqn:Hc.
  - apply Z.ltb_lt in Hc.
    destruct (photoIndices 0 (particlesRef s)) as [| i0 phs] eqn:Hphs.
    + simpl. rewrite Hz. repeat split; auto. intros _ _ Hne. congruence.
    + simpl. repeat split.
      * intros _ _ _.
        assert (Hin : In (pick (i0 :: phs) (rand (randomCalls s)))
                        (photoIndices 0 (particlesRef s))).
        { rewrite Hphs. apply pick_elem; [exact Hu | discriminate]. }
        apply photoIndices_spec in Hin. destruct Hin as (_ & p & Hp & Hi).
        rewrite Nat.sub_0_r in Hp. eauto.
      * intros _ [Hle | Hnil]; [lia | discriminate].
  - simpl. rewrite Hz. apply Z.ltb_ge in Hc. repeat split; auto.
    intros _ Hgt. lia.
Qed.

(** ** Rotation speed *)

(** Whatever gesture a hand shows, the frame sets the rotation speed to
    [(0.5 - wrist.x) * 0.035]: for a wrist inside the image it lies between
    -0.0175 and 0.0175 and is positive exactly when the wrist is left of
    the centre. *)
Theorem rotation_speed_from_wrist (now : Z) (l : Landmarks) (s : App) :
  listening now s ->
  0 <= lm_x (l 0%nat) <= 1 ->
  let v := rotationSpeedRef (predictLoop rand now (Hand l) s) in
  v = (0.5 - lm_x (l 0%nat)) * 0.035 /\
  -0.0175 <= v <= 0.0175 /\
  (0 < v <-> lm_x (l 0%nat) < 0.5).
Proof.
  intros Hl Hx. cbv zeta.
  assert (Hv : rotationSpeedRef (predictLoop rand now (Hand l) s)
               = (0.5 - lm_x (l 0%nat)) * 0.035).
  { rewrite (predictLoop_listening rand _ _ _ Hl). unfold wrist.
    destruct (classify l); simpl; try reflexivity.
    - (* PINCH *)
      repeat match goal with
             | |- context [if ?b then _ else _] => destruct b
             end; reflexivity.
    - (* L_SHAPE *)
      match goal with
      | |- context [if ?b then triggerCountdown now ?s1 else _] =>
          destruct b; [| reflexivity];
          unfold triggerCountdown;
          destruct (decide (captureState s1 <> IDLE)); [reflexivity |];
          destruct (now - lastCaptureTimeRef s1 <? 4000)%Z; reflexivity
      end. }
  rewrite Hv. split; [reflexivity |]. split; [lra |]. split; intros; nra.
Qed.

End PinchHold.

Lemma pinch_frame_witness :
  listening 10000 sampleApp /\
  pinchHoldTimeRef (predictLoop zeroRand 10000 (Hand pinchPalmHand) sampleApp)
    = 8%Z /\
  lShapeHoldTimeRef (predictLoop zeroRand 10000 (Hand pinchPalmHand) sampleApp)
    = 12%Z.
Proof.
  split; [exact sampleApp_listening |].
  pose proof (pinch_frame zeroRand 10000 pinchPalmHand sampleApp
                sampleApp_listening classify_pinchPalmHand (zeroRand_unit _))
    as (Hp & Hl & _).
  split; [exact Hp | exact Hl].
Defined.

Lemma rotation_speed_from_wrist_witness :
  rotationSpeedRef (predictLoop zeroRand 10000 (Hand fistHand) sampleApp)
  = (0.5 - lm_x (fistHand 0%nat)) * 0.035.
Proof.
  apply (rotation_speed_from_wrist zeroRand 10000 fistHand sampleApp
           sampleApp_listening).
  simpl. lra.
Defined.

(** ** L-shape hold and the capture trigger *)

Section LShapeHold.

Variable rand : nat -> R.

(** An L-shape frame adds one to the L-shape hold counter, resets the pinch
    counter and shows the counter on the hold bar as a percentage of 30,
    capped at 100.  The capture starts (COUNTDOWN at 3, first tick in
    1000 ms) exactly when the counter passes 30 and the last capture ended
    at least 4000 ms ago; otherwise the capture state stays IDLE. *)
Theorem lshape_frame (now : Z) (l : Landmarks) (s : App) :
  listening now s ->
  classify l = L_SHAPE ->
  (0 <= lShapeHoldTimeRef s)%Z ->
  let s' := frame rand now (Hand l) s in
  lShapeHoldTimeRef s' = (lShapeHoldTimeRef s + 1)%Z /\
  pinchHoldTimeRef s' = 0%Z /\
  (exists pct, 0 <= pct <= 100 /\
               pct = JS.min (IZR (lShapeHoldTimeRef s + 1) / 30 * 100) 100 /\
               holdBarRef s' = option_map (fun _ => pct) (holdBarRef s)) /\
  cameraReady s' /\
  lastCaptureTimeRef s' = lastCaptureTimeRef s /\
  ((lShapeHoldTimeRef s + 1 <= 30)%Z \/
   (now - lastCaptureTimeRef s < 4000)%Z ->
   captureState s' = IDLE /\ countdown s' = countdown s /\
   timers s' = timers s) /\
  ((30 < lShapeHoldTimeRef s + 1)%Z ->
   (4000 <= now - lastCaptureTimeRef s)%Z ->
   captureState s' = COUNTDOWN /\ countdown s' = Some 3%Z /\
   timers s' =
     insertTimer (now + 1000) CountdownTick
       (List.filter (fun e => negb (isCountdownTick e)) (timers s))).
Proof.
  intros Hl Hg Hn. cbv zeta. unfold frame.
  rewrite (predictLoop_listening rand _ _ _ Hl), Hg.
  destruct Hl as (Hm & Hv & Hlm & Hc & Ht).
  assert (Hpct : 0 <= JS.min (IZR (lShapeHoldTimeRef s + 1) / 30 * 100) 100
                 <= 100).
  { unfold JS.min.
    assert (Hpos : 0 <= IZR (lShapeHoldTimeRef s + 1)) by (apply IZR_le; lia).
    split; [apply Rmin_glb; lra | apply Rmin_r]. }
  destruct s as [am cs cd fl sn cm cg gr rs hb mg cam vr lr im c2 ps zp pp
                 lh ph lc tm rc].
  simpl in *. subst cs.
  assert (Hready : cameraReady
            {| appMode := am; captureState := IDLE; countdown := cd;
               flash := fl; snapshotImage := sn; camMessage := cm;
               currentGesture := cg; gestureRef := gr;
               rotationSpeedRef := rs; holdBarRef := hb;
               mainGroupRef := mg; cameraRef := cam; videoRef := vr;
               landmarkerRef := lr; isMountedRef := im; canvas2d := c2;
               particlesRef := ps; zoomedPhotoRef := zp;
               previewingPhotoRef := pp; lShapeHoldTimeRef := lh;
               pinchHoldTimeRef := ph; lastCaptureTimeRef := lc;
               timers := tm; randomCalls := rc |}).
  { unfold cameraReady. simpl. auto. }
  unfold cameraReady in *. simpl in Hready.
  destruct (30 <? lh + 1)%Z eqn:Hthr;
    [destruct (now - lc <? 4000)%Z eqn:Hcool |];
    unfold triggerCountdown, commit, setHoldBar; simpl;
    rewrite ?Hcool; simpl.
  - (* threshold passed, still cooling down *)
    apply Z.ltb_lt in Hthr, Hcool.
    destruct (decide (cd = cd /\ IDLE = IDLE)) as [_ | Hne];
      [| exfalso; apply Hne; split; reflexivity].
    simpl.
    split; [reflexivity |]. split; [reflexivity |].
    split; [eexists; split; [exact Hpct | split; reflexivity] |].
    split; [exact Hready |]. split; [reflexivity |].
    split; [intros _; auto | intros _ Hx; lia].
  - (* threshold passed, cooldown over *)
    apply Z.ltb_lt in Hthr. apply Z.ltb_ge in Hcool.
    destruct (decide (Some 3%Z = cd /\ COUNTDOWN = IDLE)) as [[_ Hx] | _];
      [discriminate Hx |].
    simpl.
    split; [reflexivity |]. split; [reflexivity |].
    split; [eexists; split; [exact Hpct | split; reflexivity] |].
    split; [exact Hready |]. split; [reflexivity |].
    split; [intros [Hx | Hx]; lia | intros _ _; auto].
  - (* below the threshold *)
    apply Z.ltb_ge in Hthr.
    destruct (decide (cd = cd /\ IDLE = IDLE)) as [_ | Hne];
      [| exfalso; apply Hne; split; reflexivity].
    simpl.
    split; [reflexivity |]. split; [reflexivity |].
    split; [eexists; split; [exact Hpct | split; reflexivity] |].
    split; [exact Hready |]. split; [reflexivity |].
    split; [intros _; auto | intros Hx; lia].
Qed.




End LShapeHold.

Lemma restingApp_listening : listening 10000 restingApp.
Proof.
  unfold listening. simpl. repeat split; try reflexivity.
  - exists sampleVideo. split; [reflexivity |]. simpl. lia.
  - lia.
Qed.

Lemma lshape_frame_witness :
  lShapeHoldTimeRef (frame zeroRand 10000 (Hand lShapeHand) restingApp) = 1%Z /\
  captureState (frame zeroRand 10000 (Hand lShapeHand) restingApp) = IDLE.
Proof.
  pose proof (lshape_frame zeroRand 10000 lShapeHand restingApp
                restingApp_listening classify_lShapeHand
                ltac:(simpl; lia))
    as (Hh & _ & _ & _ & _ & Hstay & _).
  split; [exact Hh |]. apply Hstay. left. simpl. lia.
Defined.

